(** * IRIS Symphony OSHA orchestrator: a shallow embedding of
    src/src/backend/src/semantic_kernel_orchestrator.py

    The routing functions, the CustomGroupChatManager callbacks and the
    retry loop of SemanticKernelOrchestrator.process_message, with
    - JSON values as the Python objects json.loads produces
      (dicts as association lists, numbers as exact rationals);
    - Python exceptions of subscripting, .get, comparison and str.join as
      an error result;
    - json.loads itself a section variable: every theorem holds for any
      decoder, witnesses use a small concrete one. *)

From Stdlib Require Import String Ascii List Bool Arith Lia QArith Setoid.
Set Warnings "-register-all".
Import ListNotations.
Open Scope nat_scope.
Open Scope string_scope.

(** ** Python values produced by json.loads *)

Inductive json : Type :=
| JNull
| JBool (b : bool)
| JNum (is_int : bool) (q : Q)   (* an int when written without fraction or exponent *)
| JStr (s : string)
| JArr (xs : list json)
| JObj (fields : list (string * json)).

(** Exceptions raised by the operations the orchestrator performs on
    parsed payloads. Messages follow CPython's wording. *)
Inductive PyExc : Type :=
| JSONDecodeError (msg : string)
| KeyError (key_repr : string)
| TypeError (msg : string)
| IndexError (msg : string)
| AttributeError (msg : string)
| ValidationError (msg : string).   (* pydantic_core.ValidationError *)

(** [str(e)] *)
Definition exc_str (e : PyExc) : string :=
  match e with
  | JSONDecodeError m => m
  | KeyError k => k
  | TypeError m | IndexError m | AttributeError m | ValidationError m => m
  end.

Inductive res (A : Type) : Type :=
| Ok (a : A)
| Err (e : PyExc).
Arguments Ok {A} a.
Arguments Err {A} e.

Definition bind {A B} (m : res A) (k : A -> res B) : res B :=
  match m with Ok a => k a | Err e => Err e end.

Notation "x <- m ;; k" := (bind m (fun x => k))
  (at level 61, m at next level, right associativity).

Definition py_type_name (j : json) : string :=
  match j with
  | JNull => "NoneType" | JBool _ => "bool"
  | JNum is_int _ => if is_int then "int" else "float"
  | JStr _ => "str" | JArr _ => "list" | JObj _ => "dict"
  end.

Fixpoint assoc (k : string) (fs : list (string * json)) : option json :=
  match fs with
  | [] => None
  | (k', v) :: fs' => if String.eqb k k' then Some v else assoc k fs'
  end.

(** [j[k]] for a string key *)
Definition getitem_key (j : json) (k : string) : res json :=
  match j with
  | JObj fs => match assoc k fs with Some v => Ok v | None => Err (KeyError ("'" ++ k ++ "'")) end
  | JArr _ => Err (TypeError "list indices must be integers or slices, not str")
  | JStr _ => Err (TypeError "string indices must be integers, not 'str'")
  | _ => Err (TypeError ("'" ++ py_type_name j ++ "' object is not subscriptable"))
  end.

(** [j[0]] *)
Definition getitem_0 (j : json) : res json :=
  match j with
  | JArr (x :: _) => Ok x
  | JArr [] => Err (IndexError "list index out of range")
  | JStr (String c _) => Ok (JStr (String c EmptyString))
  | JStr EmptyString => Err (IndexError "string index out of range")
  | JObj _ => Err (KeyError "0")   (* JSON keys are str, never the int 0 *)
  | _ => Err (TypeError ("'" ++ py_type_name j ++ "' object is not subscriptable"))
  end.

(** [j.get(k, default)] *)
Definition py_get (j : json) (k : string) (default : json) : res json :=
  match j with
  | JObj fs => match assoc k fs with Some v => Ok v | None => Ok default end
  | _ => Err (AttributeError ("'" ++ py_type_name j ++ "' object has no attribute 'get'"))
  end.

(** [j == "s"] *)
Definition py_eq_str (j : json) (s : string) : bool :=
  match j with JStr t => String.eqb t s | _ => false end.

(** [j >= t] for a float threshold [t]; bool is an int subclass *)
Definition py_ge (j : json) (t : Q) : res bool :=
  match j with
  | JNum _ q => Ok (Qle_bool t q)
  | JBool b => Ok (Qle_bool t (if b then 1 else 0))
  | _ => Err (TypeError ("'>=' not supported between instances of '"
                          ++ py_type_name j ++ "' and 'float'"))
  end.

Fixpoint str_chars (s : string) : list string :=
  match s with
  | EmptyString => []
  | String c s' => String c EmptyString :: str_chars s'
  end.

Fixpoint strs_of (xs : list json) : option (list string) :=
  match xs with
  | [] => Some []
  | JStr s :: xs' => option_map (cons s) (strs_of xs')
  | _ :: _ => None
  end.

(** [sep.join(j)]: iterates a list, the characters of a string, or the keys
    of a dict; every item must be a str. *)
Definition py_join (sep : string) (j : json) : res string :=
  match j with
  | JArr xs => match strs_of xs with
               | Some ss => Ok (String.concat sep ss)
               | None => Err (TypeError "sequence item: expected str instance")
               end
  | JStr s => Ok (String.concat sep (str_chars s))
  | JObj fs => Ok (String.concat sep (map fst fs))
  | _ => Err (TypeError "can only join an iterable")
  end.

(** ** Chat messages, histories and the participant registry *)

Inductive AuthorRole := USER | ASSISTANT.

Record ChatMessageContent := mkMsg {
  role : AuthorRole;
  name : option string;
  content : string
}.

Definition ChatHistory := list ChatMessageContent.

(** [participant_descriptions.keys()], in insertion order *)
Definition Registry := list string.

(** semantic_kernel's StringResult, a pydantic model with [result: str]
    and [reason: str] *)
Record StringResult := mkSR { result : string; reason : string }.

(** ["\n"] *)
Definition nl : string := String (ascii_of_nat 10) EmptyString.

(** What pydantic raises for [StringResult(result=None, ...)] (its message
    without the trailing documentation link, which depends on the version) *)
Definition none_result_error : PyExc :=
  ValidationError ("1 validation error for StringResult" ++ nl ++ "result" ++ nl
    ++ "  Input should be a valid string [type=string_type, input_value=None, input_type=NoneType]").

(** [StringResult(result=result, reason=reason)] *)
Definition new_StringResult (result : option string) (reason : string) : res StringResult :=
  match result with
  | Some s => Ok (mkSR s reason)
  | None => Err none_result_error
  end.

(** [try: m except Exception as e: h(e)] *)
Definition try_res {A} (m : res A) (h : PyExc -> res A) : res A :=
  match m with Ok a => Ok a | Err e => h e end.

(** [return StringResult(...)] from a function that may also return None *)
Definition some_sr (m : res StringResult) : res (option StringResult) :=
  sr <- m;; Ok (Some sr).

Fixpoint last_opt {A} (l : list A) : option A :=
  match l with
  | [] => None
  | [x] => Some x
  | _ :: l' => last_opt l'
  end.

(** [next((agent for agent in keys if agent == target), None)] *)
Definition find_agent (r : Registry) (target : string) : option string :=
  find (fun a => String.eqb a target) r.

Definition name_is (m : ChatMessageContent) (n : string) : bool :=
  match name m with Some x => String.eqb x n | None => false end.

Definition is_user (m : ChatMessageContent) : bool :=
  match role m with USER => true | ASSISTANT => false end.

Definition valid_agents : list string :=
  ["SciencesAgent"; "GovernanceAgent"; "AnalyticsAgent"; "ExperienceAgent"].

Definition mem_str (s : string) (l : list string) : bool :=
  existsb (String.eqb s) l.

(** [target_agent in valid_agents] for a JSON value *)
Definition json_in_valid (j : json) : bool :=
  match j with JStr s => mem_str s valid_agents | _ => false end.

(** Output printed by route_lumi_message (the only prints a claim is
    about; the other prints of the module are not modelled). *)
Inductive LogEvent :=
| LumiRouting (target_agent iri_domains : json)
  (* print(f"[Lumi] Routing to {target_agent} (IRI domains: {iri_domains})") *)
| UnknownTarget (target_agent : json)
  (* print(f"[SYSTEM]: Unknown target agent '{target_agent}', defaulting to GovernanceAgent") *)
| LumiError (e : string)
  (* print(f"[SYSTEM]: Error processing Lumi message: {e}") *).

(** A writer over [res]: printed lines, then the value or the exception. *)
Definition PyM (A : Type) : Type := (list LogEvent * res A)%type.

Definition pret {A} (a : A) : PyM A := ([], Ok a).
Definition praise {A} (e : PyExc) : PyM A := ([], Err e).
Definition plift {A} (m : res A) : PyM A := ([], m).
Definition emit (ev : LogEvent) : PyM unit := ([ev], Ok tt).
Definition pbind {A B} (m : PyM A) (k : A -> PyM B) : PyM B :=
  match m with
  | (l, Ok a) => let (l', r) := k a in (app l l', r)
  | (l, Err e) => (l, Err e)
  end.
(** [try: m except Exception as e: h(e)] *)
Definition try_except {A} (m : PyM A) (h : PyExc -> PyM A) : PyM A :=
  match m with
  | (l, Ok a) => (l, Ok a)
  | (l, Err e) => let (l', r) := h e in (app l l', r)
  end.

Notation "x <-- m ;;; k" := (pbind m (fun x => k))
  (at level 61, m at next level, right associativity).

Section Routing.

(** [json.loads] *)
Variable json_loads : string -> res json.
(** Module-level thresholds, read once at import. *)
Variable confidence_threshold cqa_confidence : Q.

Definition route_user_message (r : Registry) : res StringResult :=
  try_res (new_StringResult (find_agent r "TranslationAgent")
                            "Routing to TranslationAgent for initial translation.")
          (fun e => new_StringResult None ("Error routing to TranslationAgent: " ++ exc_str e)).

Definition route_translation_message (m : ChatMessageContent) (r : Registry)
  : res StringResult :=
  try_res (parsed <- json_loads (content m);;
           response <- getitem_key parsed "response";;
           new_StringResult (find_agent r "TriageAgent")
                            "Routing to TriageAgent for intent classification.")
          (fun e => new_StringResult None ("Error routing to TriageAgent: " ++ exc_str e)).

(** The body of the [try] of route_triage_message. [Ok None] is falling off
    the end of the [try] without a [return]: the function returns None. *)
Definition triage_body (m : ChatMessageContent) (r : Registry)
  : res (option StringResult) :=
  parsed <- json_loads (content m);;
  ty <- py_get parsed "type" JNull;;
  if py_eq_str ty "cqa_result" then
    resp <- getitem_key parsed "response";;
    answers <- getitem_key resp "answers";;
    a0 <- getitem_0 answers;;
    confidence <- getitem_key a0 "confidenceScore";;
    ge <- py_ge confidence cqa_confidence;;
    if ge then
      some_sr (new_StringResult (find_agent r "TranslationAgent")
        "Routing to TranslationAgent for final translation of CQA answer.")
    else
      some_sr (new_StringResult (find_agent r "Lumi")
        "Low CQA confidence, routing to Lumi for deeper analysis.")
  else
    ty' <- py_get parsed "type" JNull;;
    if py_eq_str ty' "clu_result" then
      resp <- getitem_key parsed "response";;
      res0 <- getitem_key resp "result";;
      convs <- getitem_key res0 "conversations";;
      c0 <- getitem_0 convs;;
      intents <- getitem_key c0 "intents";;
      i0 <- getitem_0 intents;;
      intent <- getitem_key i0 "name";;
      resp' <- getitem_key parsed "response";;
      res0' <- getitem_key resp' "result";;
      convs' <- getitem_key res0' "conversations";;
      c0' <- getitem_0 convs';;
      intents' <- getitem_key c0' "intents";;
      i0' <- getitem_0 intents';;
      confidence <- getitem_key i0' "confidenceScore";;
      ge <- py_ge confidence confidence_threshold;;
      if ge then
        some_sr (new_StringResult (find_agent r "Lumi")
          "Routing to Lumi for IRI domain agent selection.")
      else
        some_sr (new_StringResult (find_agent r "Lumi")
          "Low CLU confidence, Lumi will request clarification.")
    else Ok None.

Definition route_triage_message (m : ChatMessageContent) (r : Registry)
  : res (option StringResult) :=
  try_res (triage_body m r)
          (fun _ => some_sr (new_StringResult None "Error processing TriageAgent message.")).

Definition route_lumi_message (m : ChatMessageContent) (r : Registry)
  : PyM StringResult :=
  try_except
    (parsed <-- plift (json_loads (content m));;;
     target_agent <-- plift (py_get parsed "target_agent" JNull);;;
     iri_domains <-- plift (py_get parsed "iri_domains" (JArr []));;;
     _ <-- emit (LumiRouting target_agent iri_domains);;;
     target <-- (match target_agent with
                 | JStr s => if mem_str s valid_agents then pret s
                             else pbind (emit (UnknownTarget target_agent))
                                        (fun _ => pret "GovernanceAgent")
                 | _ => pbind (emit (UnknownTarget target_agent))
                              (fun _ => pret "GovernanceAgent")
                 end);;;
     joined <-- plift (py_join ", " iri_domains);;;
     plift (new_StringResult (find_agent r target)
                             ("Routing to " ++ target ++ " for " ++ joined
                              ++ " domain expertise.")))
    (fun e => pbind (emit (LumiError (exc_str e)))
                    (fun _ => plift (new_StringResult None "Error processing Lumi message."))).

Definition route_sage_agent_message (m : ChatMessageContent) (r : Registry)
  : res StringResult :=
  try_res (parsed <- json_loads (content m);;
           response <- py_get parsed "response" (JStr "");;
           need_more_info <- py_get parsed "need_more_info" (JStr "False");;
           new_StringResult (find_agent r "TranslationAgent")
                            "Routing to TranslationAgent for final translation.")
          (fun _ => new_StringResult None "Error processing SAGE agent message.").

(** What route_lumi_message returns or raises, without its prints. *)
Definition lumi_result (m : ChatMessageContent) (r : Registry) : res StringResult :=
  snd (route_lumi_message m r).

(** CustomGroupChatManager.select_next_agent: [Ok (Some sr)] is a returned
    StringResult, [Ok None] Python's None coming back from
    route_triage_message, [Err e] an exception leaving the method.
    format_agent_response only prints. *)
Definition select_next_agent (h : ChatHistory) (r : Registry)
  : res (option StringResult) :=
  match last_opt h with
  | None => some_sr (route_user_message r)
  | Some m =>
    if is_user m then some_sr (route_user_message r)
    else if name_is m "TranslationAgent" then
      if Nat.ltb 3 (length h) then some_sr (new_StringResult None "Final translation complete.")
      else some_sr (route_translation_message m r)
    else if name_is m "TriageAgent" then route_triage_message m r
    else if name_is m "Lumi" then some_sr (lumi_result m r)
    else if (match name m with Some n => mem_str n valid_agents | None => false end)
    then some_sr (route_sage_agent_message m r)
    else some_sr (new_StringResult None "No valid routing logic found.")
  end.

(** CustomGroupChatManager.should_terminate *)
Definition should_terminate (h : ChatHistory) : bool :=
  match last_opt h with
  | None => false
  | Some m => name_is m "TranslationAgent" && (Nat.ltb 3 (length h))
  end.

(** CustomGroupChatManager.should_request_user_input (bare except) *)
Definition should_request_user_input (h : ChatHistory) : bool :=
  match last_opt h with
  | None => false
  | Some m =>
    match (parsed <- json_loads (content m);; py_get parsed "need_more_info" JNull) with
    | Ok v => py_eq_str v "True"
    | Err _ => false
    end
  end.

End Routing.

Record MessageResult := mkMR { mresult : ChatMessageContent; mreason : string }.

(** CustomGroupChatManager.filter_results *)
Definition filter_results (h : ChatHistory) : MessageResult :=
  match last_opt h with
  | None => mkMR (mkMsg ASSISTANT None "No messages in chat history.")
                 "Chat history is empty."
  | Some last_message =>
    mkMR (mkMsg ASSISTANT None (content last_message))
         "Returning the last agent's response."
  end.

(** ** The retry loop of SemanticKernelOrchestrator.process_message *)

(** What one attempt's awaited calls do: [orchestration.invoke] raises, or
    [orchestration_result.get(timeout=120)] times out, raises, or returns a
    value whose content is given. *)
Inductive attempt_outcome :=
| AInvokeRaises (msg : string)
| ATimeout
| AGetRaises (msg : string)
| AValue (value_content : string).

(** [last_exception] dicts *)
Record failure := mkFail { ftype : string; fmessage : string }.

(** Effects of the loop, in order. *)
Inductive harness_event :=
| EvRuntimeStart (attempt : nat)   (* runtime = InProcessRuntime(); runtime.start() *)
| EvInvoke
| EvGet (timeout : nat)
| EvRuntimeStop                    (* finally: runtime.stop_when_idle() *)
| EvSleep (secs : nat).

(** What process_message ends with: a returned pair, the returned error
    dict [{"error": f"Orchestration failed: {last_exception}"}], or an
    exception escaping the method. *)
Inductive pm_outcome :=
| PMReturn (final_answer need_more_info : json)
| PMError (last_exception : option failure) (need_more_info : json)
| PMRaised (msg : string).

Section Harness.

Variable json_loads : string -> res json.

(** Lines 446-448: the final JSON, its answer and its need_more_info. *)
Definition extract_result (c : string) : res (json * json) :=
  final_response <- json_loads c;;
  resp <- getitem_key final_response "response";;
  final_answer <- getitem_key resp "final_answer";;
  resp' <- getitem_key final_response "response";;
  need_more_info <- py_get resp' "need_more_info" (JBool false);;
  Ok (final_answer, need_more_info).

(** The outcome of attempt [k] of the run. *)
Variable env : nat -> attempt_outcome.

(** [while retry_count < max_retries:], with [fuel = max_retries - retry_count]. *)
Fixpoint retry_loop (fuel retry_count : nat) (last_exception : option failure)
  : list harness_event * pm_outcome :=
  match fuel with
  | O => ([], PMError last_exception (JBool false))
  | S fuel' =>
    let started := [EvRuntimeStart retry_count; EvInvoke] in
    let fail (f : failure) :=
      let (t, o) := retry_loop fuel' (S retry_count) (Some f) in
      (started ++ [EvGet 120; EvRuntimeStop; EvSleep 1] ++ t, o) in
    match env retry_count with
    | AInvokeRaises e => (started ++ [EvRuntimeStop], PMRaised e)
    | ATimeout => fail (mkFail "timeout" "Orchestration timed out")
    | AGetRaises e => fail (mkFail "exception" e)
    | AValue c =>
      match extract_result c with
      | Ok (fa, nmi) => (started ++ [EvGet 120; EvRuntimeStop], PMReturn fa nmi)
      | Err e => fail (mkFail "exception" (exc_str e))
      end
    end
  end%list.

Definition process_message (max_retries : nat) : list harness_event * pm_outcome :=
  retry_loop max_retries 0 None.

End Harness.

(** ** Concrete instances for examples and witnesses *)

(** The seven agents of initialize_agents, in orchestration order. *)
Definition full_registry : Registry :=
  ["TranslationAgent"; "TriageAgent"; "Lumi"; "SciencesAgent";
   "GovernanceAgent"; "AnalyticsAgent"; "ExperienceAgent"].

(** Writes JSON text with a backtick standing for the double quote. *)
Fixpoint dq (s : string) : string :=
  match s with
  | EmptyString => EmptyString
  | String c s' =>
    String (if Ascii.eqb c "`"%char then Ascii.ascii_of_nat 34 else c) (dq s')
  end.

Definition p_translated := dq "{`response`: {`current_question`: `Is this recordable?`}}".
Definition p_other := dq "{`type`: `other`}".
Definition p_cqa := dq "{`type`: `cqa_result`, `response`: {`answers`: [{`confidenceScore`: 0.9}]}}".
Definition p_clu := dq "{`type`: `clu_result`, `response`: {`result`: {`conversations`: [{`intents`: [{`name`: `TreatmentType`, `confidenceScore`: 0.95}]}]}}}".
Definition p_lumi_unknown := dq "{`target_agent`: `UnknownAgent`, `iri_domains`: [`governance`]}".
Definition p_array := dq "[]".
Definition p_final_no_nmi := dq "{`response`: {`final_answer`: `Stitches are medical treatment.`}}".
Definition p_final_ok := dq "{`response`: {`final_answer`: `ok`, `need_more_info`: `False`}}".
Definition p_need_more := dq "{`response`: `more details needed`, `need_more_info`: `True`}".

Definition payload_table : list (string * json) :=
  [ (p_translated, JObj [("response", JObj [("current_question", JStr "Is this recordable?")])]);
    (p_other, JObj [("type", JStr "other")]);
    (p_cqa, JObj [("type", JStr "cqa_result");
                  ("response", JObj [("answers", JArr [JObj [("confidenceScore", JNum false (9#10))]])])]);
    (p_clu, JObj [("type", JStr "clu_result");
                  ("response", JObj [("result", JObj [("conversations", JArr [JObj [("intents",
                     JArr [JObj [("name", JStr "TreatmentType"); ("confidenceScore", JNum false (95#100))]])]])])])]);
    (p_lumi_unknown, JObj [("target_agent", JStr "UnknownAgent");
                           ("iri_domains", JArr [JStr "governance"])]);
    (p_array, JArr []);
    (p_final_no_nmi, JObj [("response", JObj [("final_answer", JStr "Stitches are medical treatment.")])]);
    (p_final_ok, JObj [("response", JObj [("final_answer", JStr "ok"); ("need_more_info", JStr "False")])]);
    (p_need_more, JObj [("response", JStr "more details needed"); ("need_more_info", JStr "True")])
  ].

(** A json.loads that knows the payloads above and rejects any other text. *)
Definition demo_loads (s : string) : res json :=
  match assoc s payload_table with
  | Some j => Ok j
  | None => Err (JSONDecodeError "Expecting value: line 1 column 1 (char 0)")
  end.

Definition demo_clu : Q := 7 # 10.
Definition demo_cqa : Q := 4 # 5.

Definition user_msg (c : string) : ChatMessageContent := mkMsg USER None c.
Definition agent_msg (a c : string) : ChatMessageContent := mkMsg ASSISTANT (Some a) c.

Definition h_cqa : ChatHistory :=
  [user_msg "What is considered first aid?"; agent_msg "TranslationAgent" p_translated;
   agent_msg "TriageAgent" p_cqa].

Definition h_to_lumi : ChatHistory :=
  [user_msg "Employee got 3 stitches"; agent_msg "TranslationAgent" p_translated;
   agent_msg "TriageAgent" p_clu].

Definition h_lumi_unknown : ChatHistory := app h_to_lumi [agent_msg "Lumi" p_lumi_unknown].

(** ** Who spoke a turn *)

Inductive Speaker := SUser | SAgent (n : option string).

Definition speaker (m : ChatMessageContent) : Speaker :=
  if is_user m then SUser else SAgent (name m).

Definition is_translator_speaker (s : Speaker) : bool :=
  match s with SAgent (Some n) => String.eqb n "TranslationAgent" | _ => false end.

(** Number of participant turns by the Translator. *)
Definition translator_turns (h : ChatHistory) : nat :=
  length (filter is_translator_speaker (map speaker h)).

(** Dispatcher payload fields as route_lumi_message reads them. *)
Definition lumi_target (target_agent : json) : string :=
  match target_agent with
  | JStr s => if mem_str s valid_agents then s else "GovernanceAgent"
  | _ => "GovernanceAgent"
  end.

Definition field_or (fs : list (string * json)) (k : string) (d : json) : json :=
  match assoc k fs with Some v => v | None => d end.

(** ** Lemmas on the embedding *)

Lemma last_opt_app {A} (l : list A) (x : A) : last_opt (app l [x]) = Some x.
Proof.
  induction l as [|a l IH]; [reflexivity|].
  simpl. destruct (app l [x]) eqn:E; [destruct l; discriminate | exact IH].
Qed.

Lemma last_opt_map {A B} (f : A -> B) (l : list A) :
  last_opt (map f l) = option_map f (last_opt l).
Proof.
  induction l as [|a [|b l] IH]; try reflexivity.
  simpl in *. exact IH.
Qed.

Lemma last_opt_none {A} (l : list A) : last_opt l = None -> l = [].
Proof.
  induction l as [|a [|b l] IH]; simpl; intro H; try discriminate; auto.
  specialize (IH H). discriminate.
Qed.

Lemma find_agent_eq r n a : find_agent r n = Some a -> a = n.
Proof.
  unfold find_agent. intro H. apply find_some in H as [_ H].
  now apply String.eqb_eq in H.
Qed.

Lemma find_agent_in r n : In n r -> find_agent r n = Some n.
Proof.
  unfold find_agent. induction r as [|a r IH]; simpl; [tauto|].
  intros [<-|H]; [now rewrite String.eqb_refl|].
  destruct (String.eqb a n) eqn:E; [now apply String.eqb_eq in E; subst|auto].
Qed.

Lemma bind_ok {A B} (m : res A) (k : A -> res B) b :
  bind m k = Ok b -> exists a, m = Ok a /\ k a = Ok b.
Proof. destruct m; simpl; [eauto|discriminate]. Qed.

Lemma lumi_target_valid t : In (lumi_target t) valid_agents.
Proof.
  unfold lumi_target. destruct t; try (simpl; tauto).
  destruct (mem_str s valid_agents) eqn:E; [|simpl; tauto].
  unfold mem_str in E. apply existsb_exists in E as [x [Hx Hs]].
  apply String.eqb_eq in Hs. subst. simpl in *. tauto.
Qed.

Section RoutingFacts.

Variable json_loads : string -> res json.
Variable confidence_threshold cqa_confidence : Q.

Lemma new_StringResult_ok o why sr : new_StringResult o why = Ok sr -> o = Some (result sr).
Proof. destruct o; simpl; intro H; [injection H as <-; reflexivity|discriminate]. Qed.

Lemma new_StringResult_find r x why sr :
  new_StringResult (find_agent r x) why = Ok sr -> result sr = x.
Proof. intro H. apply new_StringResult_ok in H. now apply find_agent_eq in H. Qed.

Lemma lumi_result_obj m r fs :
  json_loads (content m) = Ok (JObj fs) ->
  lumi_result json_loads m r =
  match py_join ", " (field_or fs "iri_domains" (JArr [])) with
  | Ok joined =>
    let t := lumi_target (field_or fs "target_agent" JNull) in
    new_StringResult (find_agent r t)
                     ("Routing to " ++ t ++ " for " ++ joined ++ " domain expertise.")
  | Err _ => Err none_result_error
  end.
Proof.
  intro H. unfold lumi_result, route_lumi_message, field_or. rewrite H.
  simpl.
  destruct (assoc "target_agent" fs) as [ta|]; destruct (assoc "iri_domains" fs) as [iri|];
  simpl; try (destruct ta; simpl);
  repeat match goal with
         | |- context [if ?b then _ else _] => destruct b; simpl
         | |- context [py_join ?s ?j] => destruct (py_join s j); simpl
         | |- context [find_agent ?r ?t] => destruct (find_agent r t); simpl
         end; reflexivity.
Qed.

Lemma lumi_result_not_obj m r :
  (forall fs, json_loads (content m) <> Ok (JObj fs)) ->
  lumi_result json_loads m r = Err none_result_error.
Proof.
  intro H. unfold lumi_result, route_lumi_message.
  destruct (json_loads (content m)) as [j|e] eqn:E; simpl; [|reflexivity].
  destruct j; simpl; try reflexivity.
  exfalso. exact (H fields eq_refl).
Qed.

Lemma lumi_result_valid m r sr :
  lumi_result json_loads m r = Ok sr -> In (result sr) valid_agents.
Proof.
  destruct (json_loads (content m)) as [[]|e] eqn:E;
    try (rewrite lumi_result_not_obj; [discriminate|intros fs; rewrite E; discriminate]).
  rewrite (lumi_result_obj _ _ _ E).
  destruct (py_join _ _); simpl; [|discriminate].
  intro Hf. apply new_StringResult_find in Hf. rewrite Hf. apply lumi_target_valid.
Qed.

Lemma triage_body_result m r sr :
  triage_body json_loads confidence_threshold cqa_confidence m r = Ok (Some sr) ->
  result sr = "TranslationAgent" \/ result sr = "Lumi".
Proof.
  unfold triage_body, some_sr.
  repeat match goal with
         | |- context [bind (new_StringResult ?o ?w) _] =>
           destruct (new_StringResult o w) as [sr'|] eqn:Hn; simpl; [|discriminate];
           apply new_StringResult_find in Hn
         | |- context [bind ?m _] => destruct m; simpl; [|discriminate]
         | |- context [if ?b then _ else _] => destruct b
         end;
  intro H; try discriminate H; injection H as <-; auto.
Qed.

Lemma route_user_result r sr :
  route_user_message r = Ok sr -> result sr = "TranslationAgent".
Proof.
  unfold route_user_message, try_res.
  destruct (new_StringResult (find_agent r "TranslationAgent") _) as [sr'|] eqn:Hn;
    [intro H; injection H as <-; exact (new_StringResult_find _ _ _ _ Hn)|discriminate].
Qed.

Lemma route_translation_result m r sr :
  route_translation_message json_loads m r = Ok sr -> result sr = "TriageAgent".
Proof.
  unfold route_translation_message, try_res.
  destruct (json_loads (content m)) as [p|e]; simpl; [|discriminate].
  destruct (getitem_key p "response"); simpl; [|discriminate].
  destruct (new_StringResult (find_agent r "TriageAgent") _) as [sr'|] eqn:Hn;
    [intro H; injection H as <-; exact (new_StringResult_find _ _ _ _ Hn)|discriminate].
Qed.

Lemma route_sage_result m r sr :
  route_sage_agent_message json_loads m r = Ok sr -> result sr = "TranslationAgent".
Proof.
  unfold route_sage_agent_message, try_res.
  destruct (json_loads (content m)) as [p|e]; simpl; [|discriminate].
  destruct (py_get p "response" _); simpl; [|discriminate].
  destruct (py_get p "need_more_info" _); simpl; [|discriminate].
  destruct (new_StringResult (find_agent r "TranslationAgent") _) as [sr'|] eqn:Hn;
    [intro H; injection H as <-; exact (new_StringResult_find _ _ _ _ Hn)|discriminate].
Qed.

End RoutingFacts.

Lemma some_sr_ok m sr : some_sr m = Ok (Some sr) -> m = Ok sr.
Proof. unfold some_sr. destruct m; simpl; intro H; [injection H as ->; reflexivity|discriminate]. Qed.

Lemma speaker_agent m n : speaker m = SAgent n -> is_user m = false /\ name m = n.
Proof. unfold speaker. destruct (is_user m); intro H; inversion H; auto. Qed.

Lemma select_agent_unfold jl ct cc h r m n :
  last_opt h = Some m -> speaker m = SAgent (Some n) ->
  select_next_agent jl ct cc h r =
  if String.eqb n "TranslationAgent" then
    (if Nat.ltb 3 (length h) then some_sr (new_StringResult None "Final translation complete.")
     else some_sr (route_translation_message jl m r))
  else if String.eqb n "TriageAgent" then route_triage_message jl ct cc m r
  else if String.eqb n "Lumi" then some_sr (lumi_result jl m r)
  else if mem_str n valid_agents then some_sr (route_sage_agent_message jl m r)
  else some_sr (new_StringResult None "No valid routing logic found.").
Proof.
  intros Hl Hs. apply speaker_agent in Hs as [Hu Hn].
  unfold select_next_agent, name_is. rewrite Hl, Hu, Hn. reflexivity.
Qed.

(** ** Claims *)

(** C10: filter_results is total; on an empty history it returns an
    assistant message with the content "No messages in chat history.", and
    on a non-empty one an assistant message carrying the last message's
    content unchanged. *)
Theorem filter_results_total :
  filter_results [] =
    mkMR (mkMsg ASSISTANT None "No messages in chat history.") "Chat history is empty." /\
  (forall (h : ChatHistory) (m : ChatMessageContent),
     mresult (filter_results (app h [m])) = mkMsg ASSISTANT None (content m)).
Proof.
  split; [reflexivity|].
  intros h m. unfold filter_results. rewrite last_opt_app. reflexivity.
Qed.

(** C7: should_request_user_input is true exactly when the latest turn's
    payload is a JSON object whose need_more_info field is the string
    "True". It reads only the history: no registry, no routing. *)
Theorem request_user_input_iff (json_loads : string -> res json) (h : ChatHistory) :
  should_request_user_input json_loads h = true <->
  exists m fs, last_opt h = Some m /\ json_loads (content m) = Ok (JObj fs) /\
               assoc "need_more_info" fs = Some (JStr "True").
Proof.
  unfold should_request_user_input. split.
  - destruct (last_opt h) as [m|] eqn:Hl; [|discriminate].
    destruct (json_loads (content m)) as [j|e] eqn:Hj; simpl; [|discriminate].
    destruct j as [| | | | |fs]; simpl; try discriminate.
    destruct (assoc "need_more_info" fs) as [v|] eqn:E; simpl; [|discriminate].
    destruct v; simpl; try discriminate.
    intro Hs. apply String.eqb_eq in Hs. subst. eauto.
  - intros (m & fs & Hl & Hj & Ha). rewrite Hl, Hj. simpl. rewrite Ha. reflexivity.
Qed.

(** C4: a Router (TriageAgent) turn with a parseable payload is routed to
    the Translator when it is a FAQ (cqa_result) match whose top answer's
    confidence reaches the FAQ threshold, to the Dispatcher (Lumi) when that
    confidence is below it, and to the Dispatcher for every intent
    (clu_result) result whatever its confidence. *)
Theorem triage_routing (json_loads : string -> res json) (ct cc : Q)
    (h : ChatHistory) (r : Registry) (m : ChatMessageContent) fs :
  last_opt h = Some m -> speaker m = SAgent (Some "TriageAgent") ->
  In "TranslationAgent" r -> In "Lumi" r ->
  json_loads (content m) = Ok (JObj fs) ->
  (forall rfs afs rest k q,
     assoc "type" fs = Some (JStr "cqa_result") ->
     assoc "response" fs = Some (JObj rfs) ->
     assoc "answers" rfs = Some (JArr (JObj afs :: rest)) ->
     assoc "confidenceScore" afs = Some (JNum k q) ->
     ((cc <= q)%Q -> exists why, select_next_agent json_loads ct cc h r =
                                   Ok (Some (mkSR "TranslationAgent" why))) /\
     ((q < cc)%Q -> exists why, select_next_agent json_loads ct cc h r =
                                  Ok (Some (mkSR "Lumi" why)))) /\
  (forall rfs resfs cfs crest ifs irest nm k q,
     assoc "type" fs = Some (JStr "clu_result") ->
     assoc "response" fs = Some (JObj rfs) ->
     assoc "result" rfs = Some (JObj resfs) ->
     assoc "conversations" resfs = Some (JArr (JObj cfs :: crest)) ->
     assoc "intents" cfs = Some (JArr (JObj ifs :: irest)) ->
     assoc "name" ifs = Some nm ->
     assoc "confidenceScore" ifs = Some (JNum k q) ->
     exists why, select_next_agent json_loads ct cc h r = Ok (Some (mkSR "Lumi" why))).
Proof.
  intros Hl Hs HT HL Hj.
  rewrite (select_agent_unfold _ _ _ _ _ _ _ Hl Hs). simpl.
  unfold route_triage_message, triage_body. rewrite Hj. simpl.
  rewrite (find_agent_in _ _ HT), (find_agent_in _ _ HL).
  split.
  - intros rfs afs rest k q Ht Hr Ha Hc. rewrite Ht. simpl.
    rewrite Hr. simpl. rewrite Ha. simpl. rewrite Hc. simpl. split.
    + intro Hle. apply Qle_bool_iff in Hle. rewrite Hle. simpl. eauto.
    + intro Hlt. destruct (Qle_bool cc q) eqn:E; [|simpl; eauto].
      apply Qle_bool_iff in E. exfalso. apply (Qlt_not_le _ _ Hlt E).
  - intros rfs resfs cfs crest ifs irest nm k q Ht Hr Hres Hc Hi Hn Hq.
    rewrite Ht. simpl. rewrite Hr. simpl. rewrite Hres. simpl. rewrite Hc. simpl.
    rewrite Hi. simpl. rewrite Hn. simpl. rewrite Hq. simpl.
    destruct (Qle_bool ct q); simpl; eauto.
Qed.

(** Witness of C4: the FAQ answer of confidence 0.9 against the 0.8 threshold. *)
Lemma triage_routing_witness :
  exists why, select_next_agent demo_loads demo_clu demo_cqa h_cqa full_registry =
              Ok (Some (mkSR "TranslationAgent" why)).
Proof.
  destruct (triage_routing demo_loads demo_clu demo_cqa h_cqa full_registry
              (agent_msg "TriageAgent" p_cqa) _ eq_refl eq_refl
              ltac:(simpl; tauto) ltac:(simpl; tauto) eq_refl) as [Hcqa _].
  apply (proj1 (Hcqa _ _ _ _ _ eq_refl eq_refl eq_refl eq_refl)).
  unfold demo_cqa. apply Qle_bool_iff. reflexivity.
Defined.

Definition iri_joinable (fs : list (string * json)) : Prop :=
  exists s, py_join ", " (field_or fs "iri_domains" (JArr [])) = Ok s.

(** C5: a Dispatcher (Lumi) turn whose payload is a JSON object with usable
    iri_domains and a target_agent outside the four Domain Responders is
    routed to GovernanceAgent, never to none, and the substitution is
    printed. *)
Theorem lumi_unknown_target_fallback (json_loads : string -> res json) (ct cc : Q)
    (h : ChatHistory) (r : Registry) (m : ChatMessageContent) fs :
  last_opt h = Some m -> speaker m = SAgent (Some "Lumi") ->
  In "GovernanceAgent" r ->
  json_loads (content m) = Ok (JObj fs) ->
  iri_joinable fs ->
  json_in_valid (field_or fs "target_agent" JNull) = false ->
  (exists why, select_next_agent json_loads ct cc h r =
               Ok (Some (mkSR "GovernanceAgent" why))) /\
  In (UnknownTarget (field_or fs "target_agent" JNull))
     (fst (route_lumi_message json_loads m r)).
Proof.
  intros Hl Hs HG Hj [joined Hjoin] Hinv. split.
  - rewrite (select_agent_unfold _ _ _ _ _ _ _ Hl Hs). simpl.
    rewrite (lumi_result_obj _ _ _ _ Hj), Hjoin. simpl.
    assert (Ht : lumi_target (field_or fs "target_agent" JNull) = "GovernanceAgent").
    { destruct (field_or fs "target_agent" JNull); simpl in *; try reflexivity.
      now rewrite Hinv. }
    rewrite Ht, (find_agent_in _ _ HG). simpl. eauto.
  - unfold route_lumi_message, field_or in *. rewrite Hj. simpl.
    destruct (assoc "iri_domains" fs) as [iri|]; simpl in Hjoin |- *;
      destruct (assoc "target_agent" fs) as [ta|]; simpl;
      try (destruct ta; simpl in Hinv |- *; try rewrite Hinv); simpl;
      try rewrite Hjoin; simpl; rewrite ?(find_agent_in _ _ HG); simpl; auto.
Qed.

(** Witness of C5: the payload naming "UnknownAgent". *)
Lemma lumi_unknown_target_fallback_witness :
  exists why, select_next_agent demo_loads demo_clu demo_cqa h_lumi_unknown full_registry =
              Ok (Some (mkSR "GovernanceAgent" why)).
Proof.
  refine (proj1 (lumi_unknown_target_fallback demo_loads demo_clu demo_cqa h_lumi_unknown
    full_registry (agent_msg "Lumi" p_lumi_unknown) _ eq_refl eq_refl
    ltac:(simpl; tauto) eq_refl _ eq_refl)).
  exists "governance". reflexivity.
Defined.




(** ** Reachable histories

    The group chat starts from the task (one user message); after every
    turn it asks should_terminate, and otherwise appends a turn by the agent
    select_next_agent names. *)

Section Reach.

Variable json_loads : string -> res json.
Variable confidence_threshold cqa_confidence : Q.
Variable r : Registry.

Inductive reachable : ChatHistory -> Prop :=
| reach_task m : role m = USER -> reachable [m]
| reach_turn h sr c :
    reachable h -> should_terminate h = false ->
    select_next_agent json_loads confidence_threshold cqa_confidence h r = Ok (Some sr) ->
    reachable (app h [agent_msg (result sr) c]).

Definition spT := SAgent (Some "TranslationAgent").
Definition spR := SAgent (Some "TriageAgent").
Definition spL := SAgent (Some "Lumi").

(** The speaker sequences of the two paths through the pipeline. *)
Definition pipeline_shape (ks : list Speaker) : Prop :=
  ks = [SUser] \/ ks = [SUser; spT] \/ ks = [SUser; spT; spR] \/
  ks = [SUser; spT; spR; spT] \/ ks = [SUser; spT; spR; spL] \/
  exists x, In x valid_agents /\
    (ks = [SUser; spT; spR; spL; SAgent (Some x)] \/
     ks = [SUser; spT; spR; spL; SAgent (Some x); spT]).

Lemma triage_next m r' sr :
  route_triage_message json_loads confidence_threshold cqa_confidence m r' = Ok (Some sr) ->
  result sr = "TranslationAgent" \/ result sr = "Lumi".
Proof.
  unfold route_triage_message, try_res.
  destruct (triage_body json_loads confidence_threshold cqa_confidence m r') as [o|e] eqn:E.
  - destruct o as [sr'|]; [|discriminate]. intros Hs. injection Hs as <-.
    exact (triage_body_result _ _ _ _ _ _ E).
  - discriminate.
Qed.

Lemma next_speaker_allowed h sr :
  select_next_agent json_loads confidence_threshold cqa_confidence h r = Ok (Some sr) ->
  match last_opt (map speaker h) with
  | None | Some SUser => result sr = "TranslationAgent"
  | Some (SAgent (Some n)) =>
    if String.eqb n "TranslationAgent" then (length h <= 3)%nat /\ result sr = "TriageAgent"
    else if String.eqb n "TriageAgent" then result sr = "TranslationAgent" \/ result sr = "Lumi"
    else if String.eqb n "Lumi" then In (result sr) valid_agents
    else if mem_str n valid_agents then result sr = "TranslationAgent"
    else False
  | Some (SAgent None) => False
  end.
Proof.
  intros Hsel. rewrite last_opt_map.
  destruct (last_opt h) as [m|] eqn:Hl; cbv beta iota delta [option_map].
  2:{ unfold select_next_agent in Hsel. rewrite Hl in Hsel.
      apply some_sr_ok in Hsel. exact (route_user_result _ _ Hsel). }
  unfold speaker. destruct (is_user m) eqn:Hu; cbv beta iota.
  { unfold select_next_agent in Hsel. rewrite Hl, Hu in Hsel.
    apply some_sr_ok in Hsel. exact (route_user_result _ _ Hsel). }
  destruct (name m) as [n|] eqn:Hn; cbv beta iota.
  2:{ unfold select_next_agent, name_is in Hsel. rewrite Hl, Hu, Hn in Hsel.
      discriminate. }
  assert (Hs : speaker m = SAgent (Some n)) by (unfold speaker; rewrite Hu, Hn; reflexivity).
  rewrite (select_agent_unfold _ _ _ _ _ _ _ Hl Hs) in Hsel.
  destruct (String.eqb n "TranslationAgent").
  { destruct (Nat.ltb 3 (length h)) eqn:Hlt; [discriminate|].
    apply Nat.ltb_ge in Hlt. split; [exact Hlt|].
    apply some_sr_ok in Hsel. exact (route_translation_result _ _ _ _ Hsel). }
  destruct (String.eqb n "TriageAgent").
  { eapply triage_next; eauto. }
  destruct (String.eqb n "Lumi").
  { apply some_sr_ok in Hsel. eapply lumi_result_valid; eauto. }
  destruct (mem_str n valid_agents).
  { apply some_sr_ok in Hsel. exact (route_sage_result _ _ _ _ Hsel). }
  discriminate.
Qed.

Lemma map_speaker_agent h a c :
  map speaker (app h [agent_msg a c]) = app (map speaker h) [SAgent (Some a)].
Proof. rewrite map_app. reflexivity. Qed.

Lemma reachable_shape h : reachable h -> pipeline_shape (map speaker h).
Proof.
  intro Hreach. induction Hreach as [m Hm | h sr c Hr IH Ht Hsel].
  - left. simpl. unfold speaker, is_user. rewrite Hm. reflexivity.
  - rewrite map_speaker_agent.
    pose proof (next_speaker_allowed _ _ Hsel) as Hn.
    remember (result sr) as a eqn:Ha; clear Ha.
    pose proof (length_map speaker h) as Hlen.
    unfold pipeline_shape in IH.
    destruct IH as [E|[E|[E|[E|[E|(x & Hx & [E|E])]]]]]; rewrite E in Hn, Hlen |- *;
      simpl in Hn.
    + subst a. unfold pipeline_shape. auto 6.
    + destruct Hn as [_ ->]. unfold pipeline_shape. auto 6.
    + destruct Hn as [->| ->]; unfold pipeline_shape; auto 6.
    + destruct Hn as [Hle _]. simpl in Hlen. lia.
    + unfold pipeline_shape. right; right; right; right; right. exists a. auto.
    + simpl in Hx. destruct Hx as [<-|[<-|[<-|[<-|[]]]]]; simpl in Hn; subst a;
        unfold pipeline_shape; do 5 right;
        (eexists; split; [|right; reflexivity]); simpl; tauto.
    + simpl in Hx. destruct Hx as [<-|[<-|[<-|[<-|[]]]]]; simpl in Hn; destruct Hn as [Hle _];
        simpl in Hlen; lia.
Qed.

End Reach.

Lemma should_terminate_len h :
  should_terminate h = true <->
  (exists m, last_opt h = Some m /\ name_is m "TranslationAgent" = true) /\ 3 < length h.
Proof.
  unfold should_terminate. destruct (last_opt h) as [m|]; split.
  - intro H. apply andb_true_iff in H as [H1 H2]. apply Nat.ltb_lt in H2. eauto.
  - intros [[m' [E H1]] H2]. injection E as <-. rewrite H1. now apply Nat.ltb_lt in H2.
  - discriminate.
  - intros [[m' [E _]] _]. discriminate.
Qed.

Lemma exists_last_name (h : ChatHistory) m n :
  last_opt h = Some m ->
  ((exists m', last_opt h = Some m' /\ name_is m' n = true) <-> name_is m n = true).
Proof.
  intro E. rewrite E. split; [intros [m' [E' H]]; injection E' as <-; exact H|eauto].
Qed.

Lemma exists_last_speaker (h : ChatHistory) m s :
  last_opt h = Some m ->
  ((exists m', last_opt h = Some m' /\ speaker m' = s) <-> speaker m = s).
Proof.
  intro E. rewrite E. split; [intros [m' [E' H]]; injection E' as <-; exact H|eauto].
Qed.

(** A one-message prefix of three user messages (a task given as several
    user messages) followed by the first Translator turn. *)
Definition h_three_users : ChatHistory :=
  [user_msg "Employee got 3 stitches"; user_msg "at the warehouse";
   user_msg "yesterday"; agent_msg "TranslationAgent" p_translated].

(** C1 fails as stated: the first Translator turn of a log of four turns is
    classified terminal, and the second Translator turn of a log of three
    turns is not. *)
Lemma should_terminate_length_heuristic :
  translator_turns h_three_users = 1 /\ should_terminate h_three_users = true /\
  translator_turns [agent_msg "TranslationAgent" p_translated;
                    agent_msg "TriageAgent" p_cqa;
                    agent_msg "TranslationAgent" p_final_ok] = 2 /\
  should_terminate [agent_msg "TranslationAgent" p_translated;
                    agent_msg "TriageAgent" p_cqa;
                    agent_msg "TranslationAgent" p_final_ok] = false.
Proof. repeat split; reflexivity. Qed.

(** C1 (amended): should_terminate is true exactly when the latest turn is
    named TranslationAgent and the log has more than three turns. On every
    log the group chat builds from the task, this is exactly: the latest
    turn is a Translator turn and it is not the first Translator turn. *)
Theorem should_terminate_characterization (json_loads : string -> res json)
    (ct cc : Q) (r : Registry) :
  (forall h, should_terminate h = true <->
     (exists m, last_opt h = Some m /\ name_is m "TranslationAgent" = true) /\ 3 < length h) /\
  (forall h, reachable json_loads ct cc r h ->
     (should_terminate h = true <->
      (exists m, last_opt h = Some m /\ speaker m = SAgent (Some "TranslationAgent")) /\
      2 <= translator_turns h)).
Proof.
  split; [exact should_terminate_len|].
  intros h Hr. apply reachable_shape in Hr.
  rewrite should_terminate_len.
  pose proof (last_opt_map speaker h) as Hlast.
  pose proof (length_map speaker h) as Hlen.
  unfold translator_turns.
  assert (Hcase : last_opt h = None \/ exists m, last_opt h = Some m)
    by (destruct (last_opt h); eauto).
  destruct Hcase as [Hl|[m Hl]].
  1:{ apply last_opt_none in Hl. subst h. destruct Hr as [E|[E|[E|[E|[E|(x & _ & [E|E])]]]]];
      discriminate. }
  rewrite (exists_last_name h m _ Hl), (exists_last_speaker h m _ Hl).
  rewrite Hl in Hlast. simpl in Hlast. unfold name_is.
  destruct Hr as [E|[E|[E|[E|[E|(x & Hx & [E|E])]]]]];
    try (simpl in Hx; destruct Hx as [<-|[<-|[<-|[<-|[]]]]]);
    rewrite E in Hlast, Hlen |- *; simpl in Hlast, Hlen |- *;
    injection Hlast as Hs; symmetry in Hs; rewrite <- Hlen;
    try (pose proof Hs as Hn; apply speaker_agent in Hn as [_ Hn]; rewrite Hn);
    rewrite Hs; simpl;
    split; intros [H1 H2]; first [split; [reflexivity|lia] | discriminate | lia].
Qed.

(** ** select_next_agent as a relation

    One rule per branch of select_next_agent, each with the branch's
    guard; the function realises the relation and the relation is
    functional. *)

Section Selection.

Variable json_loads : string -> res json.
Variable confidence_threshold cqa_confidence : Q.

Definition routed_names : list string :=
  "TranslationAgent" :: "TriageAgent" :: "Lumi" :: valid_agents.

Inductive selects (h : ChatHistory) (r : Registry) : res (option StringResult) -> Prop :=
| sel_start : last_opt h = None -> selects h r (some_sr (route_user_message r))
| sel_user m : last_opt h = Some m -> role m = USER -> selects h r (some_sr (route_user_message r))
| sel_final m :
    last_opt h = Some m -> role m = ASSISTANT -> name m = Some "TranslationAgent" ->
    3 < length h -> selects h r (some_sr (new_StringResult None "Final translation complete."))
| sel_translation m :
    last_opt h = Some m -> role m = ASSISTANT -> name m = Some "TranslationAgent" ->
    length h <= 3 -> selects h r (some_sr (route_translation_message json_loads m r))
| sel_triage m :
    last_opt h = Some m -> role m = ASSISTANT -> name m = Some "TriageAgent" ->
    selects h r (route_triage_message json_loads confidence_threshold cqa_confidence m r)
| sel_lumi m :
    last_opt h = Some m -> role m = ASSISTANT -> name m = Some "Lumi" ->
    selects h r (some_sr (lumi_result json_loads m r))
| sel_sage m n :
    last_opt h = Some m -> role m = ASSISTANT -> name m = Some n -> In n valid_agents ->
    selects h r (some_sr (route_sage_agent_message json_loads m r))
| sel_none m :
    last_opt h = Some m -> role m = ASSISTANT ->
    (forall n, name m = Some n -> ~ In n routed_names) ->
    selects h r (some_sr (new_StringResult None "No valid routing logic found.")).

Lemma mem_str_in s l : mem_str s l = true <-> In s l.
Proof.
  unfold mem_str. rewrite existsb_exists. split.
  - intros [x [Hx Hs]]. apply String.eqb_eq in Hs. now subst.
  - intros H. exists s. split; [exact H|apply String.eqb_refl].
Qed.

Lemma select_next_agent_selects h r :
  selects h r (select_next_agent json_loads confidence_threshold cqa_confidence h r).
Proof.
  unfold select_next_agent.
  destruct (last_opt h) as [m|] eqn:Hl; [|now apply sel_start].
  unfold is_user. destruct (role m) eqn:Hu; [now apply (sel_user _ _ m)|].
  unfold name_is. destruct (name m) as [n|] eqn:Hn.
  2:{ apply (sel_none _ _ m); auto. intros n' Hn'. congruence. }
  destruct (String.eqb n "TranslationAgent") eqn:E1.
  { apply String.eqb_eq in E1. subst n.
    destruct (Nat.ltb 3 (length h)) eqn:Hlt.
    - apply Nat.ltb_lt in Hlt. now apply (sel_final _ _ m).
    - apply Nat.ltb_ge in Hlt. now apply (sel_translation _ _ m). }
  destruct (String.eqb n "TriageAgent") eqn:E2.
  { apply String.eqb_eq in E2. subst n. now apply (sel_triage _ _ m). }
  destruct (String.eqb n "Lumi") eqn:E3.
  { apply String.eqb_eq in E3. subst n. now apply (sel_lumi _ _ m). }
  destruct (mem_str n valid_agents) eqn:E4.
  { apply mem_str_in in E4. now apply (sel_sage _ _ m n). }
  apply (sel_none _ _ m); auto.
  intros n' Hn'. rewrite Hn in Hn'. injection Hn' as <-.
  apply String.eqb_neq in E1, E2, E3.
  assert (~ In n valid_agents) by (rewrite <- mem_str_in; congruence).
  unfold routed_names. intros [H1|[H1|[H1|H1]]]; [congruence|congruence|congruence|contradiction].
Qed.

Lemma selects_functional h r a b : selects h r a -> selects h r b -> a = b.
Proof.
  intros Ha Hb.
  destruct Ha as [Hl|m Hl Hu|m Hl Hu Hn Hlt|m Hl Hu Hn Hlt|m Hl Hu Hn|m Hl Hu Hn
                 |m n Hl Hu Hn Hin|m Hl Hu Hn];
  destruct Hb as [Hl'|m' Hl' Hu'|m' Hl' Hu' Hn' Hlt'|m' Hl' Hu' Hn' Hlt'|m' Hl' Hu' Hn'
                 |m' Hl' Hu' Hn'|m' n' Hl' Hu' Hn' Hin'|m' Hl' Hu' Hn'];
  try reflexivity; try congruence;
  try (rewrite Hl in Hl'; injection Hl' as <-);
  try congruence; try lia;
  try (rewrite Hn in Hn'; injection Hn' as Hn'; subst);
  try (subst; simpl in *; intuition discriminate);
  try (exfalso; eapply Hn'; [eassumption|]; unfold routed_names; simpl in *; intuition);
  try (exfalso; eapply Hn; [eassumption|]; unfold routed_names; simpl in *; intuition).
Qed.

End Selection.

(** C8: next-speaker selection is a function of the ordered history and
    the registry alone: select_next_agent satisfies the branch relation
    [selects], and [selects] relates a history and a registry to at most
    one outcome (the same next speaker, or the same absence of one). *)
Theorem select_next_agent_deterministic (json_loads : string -> res json) (ct cc : Q)
    (h : ChatHistory) (r : Registry) :
  selects json_loads ct cc h r (select_next_agent json_loads ct cc h r) /\
  (forall a b, selects json_loads ct cc h r a -> selects json_loads ct cc h r b -> a = b).
Proof.
  split; [apply select_next_agent_selects|apply selects_functional].
Qed.

(** A Dispatcher turn whose text is not JSON. *)
Definition h_lumi_raw : ChatHistory :=
  app h_to_lumi [agent_msg "Lumi" "route to governance"].

(** C3 (code bug): a malformed payload does not end routing with the
    routing-failure result the handlers mean to return. Each of them builds
    StringResult(result=None, reason=...), but result is typed str, so
    pydantic raises ValidationError out of select_next_agent: for a Router,
    Dispatcher or Domain Responder turn, or a Translator turn in a log of at
    most three turns, whose payload is not valid JSON; for a Router turn
    whose JSON payload is not an object; and for a Translator turn in a log
    of more than three turns, whatever its payload. A Router payload that is
    an object whose type is neither cqa_result nor clu_result makes
    select_next_agent return None, with no reason. *)
Theorem malformed_payload_routing_failure (json_loads : string -> res json) (ct cc : Q)
    (h : ChatHistory) (r : Registry) (m : ChatMessageContent) (n : string) :
  last_opt h = Some m -> speaker m = SAgent (Some n) ->
  (forall e, json_loads (content m) = Err e ->
     In n ("TriageAgent" :: "Lumi" :: valid_agents) \/
     (n = "TranslationAgent" /\ length h <= 3) ->
     select_next_agent json_loads ct cc h r = Err none_result_error) /\
  (forall j, n = "TriageAgent" -> json_loads (content m) = Ok j ->
     (forall fs, j <> JObj fs) ->
     select_next_agent json_loads ct cc h r = Err none_result_error) /\
  (forall fs, n = "TriageAgent" -> json_loads (content m) = Ok (JObj fs) ->
     field_or fs "type" JNull <> JStr "cqa_result" ->
     field_or fs "type" JNull <> JStr "clu_result" ->
     select_next_agent json_loads ct cc h r = Ok None) /\
  (n = "TranslationAgent" -> 3 < length h ->
     select_next_agent json_loads ct cc h r = Err none_result_error).
Proof.
  intros Hl Hs. rewrite (select_agent_unfold _ _ _ _ _ _ _ Hl Hs). split; [|split; [|split]].
  - intros e He Hn.
    destruct Hn as [[<-|[<-|[<-|[<-|[<-|[<-|[]]]]]]]|[-> Hle]]; simpl;
      try (unfold route_triage_message, triage_body, route_sage_agent_message;
           rewrite He; reflexivity).
    + rewrite lumi_result_not_obj by (intros fs; rewrite He; discriminate).
      reflexivity.
    + apply Nat.ltb_ge in Hle. rewrite Hle. unfold route_translation_message.
      rewrite He. reflexivity.
  - intros j -> Hj Hnot. simpl. unfold route_triage_message, triage_body. rewrite Hj.
    simpl. destruct j; simpl; try reflexivity. exfalso. exact (Hnot fields eq_refl).
  - intros fs -> Hj H1 H2. simpl. unfold route_triage_message, triage_body. rewrite Hj.
    unfold field_or in H1, H2. simpl.
    destruct (assoc "type" fs) as [v|]; [|reflexivity].
    destruct v; simpl; try reflexivity.
    destruct (String.eqb s "cqa_result") eqn:E1.
    { apply String.eqb_eq in E1. subst. contradiction. }
    destruct (String.eqb s "clu_result") eqn:E2.
    { apply String.eqb_eq in E2. subst. contradiction. }
    reflexivity.
  - intros -> Hlt. simpl. apply Nat.ltb_lt in Hlt. rewrite Hlt. reflexivity.
Qed.

(** Witness of C3: a Dispatcher turn whose text is not JSON raises
    ValidationError out of select_next_agent. *)
Lemma malformed_payload_routing_failure_witness :
  select_next_agent demo_loads demo_clu demo_cqa h_lumi_raw full_registry =
    Err none_result_error.
Proof.
  apply (proj1 (malformed_payload_routing_failure demo_loads demo_clu demo_cqa h_lumi_raw
           full_registry (agent_msg "Lumi" "route to governance") "Lumi" eq_refl eq_refl)
           (JSONDecodeError "Expecting value: line 1 column 1 (char 0)") eq_refl).
  left. simpl. tauto.
Defined.

(** ** Retry loop *)

Definition invoke_fault : nat -> attempt_outcome :=
  fun _ => AInvokeRaises "RuntimeError: agent runtime rejected the task".

(** C2 (code bug): when [orchestration.invoke] itself raises, the exception
    leaves process_message after the first attempt's runtime teardown: no
    retry, no backoff, no structured error. Only failures of
    [orchestration_result.get] are caught. *)
Theorem process_message_invoke_fault_escapes :
  process_message demo_loads invoke_fault 3 =
    ([EvRuntimeStart 0; EvInvoke; EvRuntimeStop],
     PMRaised "RuntimeError: agent runtime rejected the task").
Proof. reflexivity. Qed.

Definition final_without_flag : nat -> attempt_outcome :=
  fun _ => AValue p_final_no_nmi.

(** C6 fails as stated: a terminal payload without need_more_info yields an
    answer, with need_more_info defaulted to False. *)
Lemma missing_need_more_info_defaults :
  snd (process_message demo_loads final_without_flag 3) =
    PMReturn (JStr "Stitches are medical treatment.") (JBool false).
Proof. reflexivity. Qed.

Section Extraction.

Variable json_loads : string -> res json.

(** The failure attempt [o] records in last_exception when one of the
    inner except clauses of process_message catches it (lines 449-457),
    and None when the attempt returns or its exception escapes. *)
Definition attempt_failure (o : attempt_outcome) : option failure :=
  match o with
  | AInvokeRaises _ => None
  | ATimeout => Some (mkFail "timeout" "Orchestration timed out")
  | AGetRaises e => Some (mkFail "exception" e)
  | AValue c =>
    match extract_result json_loads c with
    | Ok _ => None
    | Err e => Some (mkFail "exception" (exc_str e))
    end
  end.

Variable env : nat -> attempt_outcome.

Lemma retry_loop_step fuel k last :
  snd (retry_loop json_loads env (S fuel) k last) =
  match env k with
  | AInvokeRaises e => PMRaised e
  | ATimeout => snd (retry_loop json_loads env fuel (S k)
                       (Some (mkFail "timeout" "Orchestration timed out")))
  | AGetRaises e => snd (retry_loop json_loads env fuel (S k) (Some (mkFail "exception" e)))
  | AValue c =>
    match extract_result json_loads c with
    | Ok (fa, nmi) => PMReturn fa nmi
    | Err e => snd (retry_loop json_loads env fuel (S k) (Some (mkFail "exception" (exc_str e))))
    end
  end.
Proof.
  simpl. destruct (env k); [reflexivity| | |].
  1,2: destruct (retry_loop json_loads env fuel (S k) _); reflexivity.
  destruct (extract_result json_loads value_content) as [[fa nmi]|e]; [reflexivity|].
  destruct (retry_loop json_loads env fuel (S k) _); reflexivity.
Qed.

Lemma retry_loop_return fuel k last fa nmi :
  snd (retry_loop json_loads env fuel k last) = PMReturn fa nmi <->
  exists k' c, k <= k' /\ k' < k + fuel /\
    (forall i, k <= i -> i < k' -> attempt_failure (env i) <> None) /\
    env k' = AValue c /\ extract_result json_loads c = Ok (fa, nmi).
Proof.
  revert k last. induction fuel as [|fuel IH]; intros k last.
  { split; [discriminate|]. intros (k' & c & H1 & H2 & _). lia. }
  rewrite retry_loop_step.
  assert (Hskip : forall f, attempt_failure (env k) = Some f ->
            (snd (retry_loop json_loads env fuel (S k) (Some f)) = PMReturn fa nmi <->
             exists k' c, k <= k' /\ k' < k + S fuel /\
               (forall i, k <= i -> i < k' -> attempt_failure (env i) <> None) /\
               env k' = AValue c /\ extract_result json_loads c = Ok (fa, nmi))).
  { intros f Hf. rewrite IH. split.
    - intros (k' & c & H1 & H2 & H3 & H4 & H5). exists k', c.
      split; [lia|split; [lia|split; [|auto]]].
      intros i Hi1 Hi2. destruct (Nat.eq_dec i k) as [->|Hne]; [congruence|apply H3; lia].
    - intros (k' & c & H1 & H2 & H3 & H4 & H5).
      assert (k' <> k).
      { intros ->. rewrite H4 in Hf. simpl in Hf. rewrite H5 in Hf. discriminate. }
      exists k', c. split; [lia|split; [lia|split; [|auto]]].
      intros i ? ?. apply H3; lia. }
  destruct (env k) as [e| |e|c] eqn:E.
  - split; [discriminate|]. intros (k' & c & H1 & H2 & H3 & H4 & H5).
    destruct (Nat.eq_dec k' k) as [->|Hne]; [congruence|].
    exfalso. apply (H3 k); [lia|lia|]. rewrite E. reflexivity.
  - apply Hskip. reflexivity.
  - apply Hskip. reflexivity.
  - destruct (extract_result json_loads c) as [[fa' nmi']|e] eqn:X.
    + split.
      * intros H. injection H as <- <-. exists k, c.
        split; [lia|split; [lia|split; [intros; lia|auto]]].
      * intros (k' & c' & H1 & H2 & H3 & H4 & H5).
        destruct (Nat.eq_dec k' k) as [->|Hne].
        -- rewrite E in H4. injection H4 as <-. rewrite X in H5. congruence.
        -- exfalso. apply (H3 k); [lia|lia|]. rewrite E. simpl. rewrite X. reflexivity.
    + apply Hskip. simpl. rewrite X. reflexivity.
Qed.

Lemma retry_loop_exhausted fuel k last :
  (forall i, k <= i -> i < k + fuel -> attempt_failure (env i) <> None) ->
  snd (retry_loop json_loads env fuel k last) =
  PMError (match fuel with O => last | S f => attempt_failure (env (k + f)) end) (JBool false).
Proof.
  revert k last. induction fuel as [|fuel IH]; intros k last Hall; [reflexivity|].
  rewrite retry_loop_step.
  assert (Hk : attempt_failure (env k) <> None) by (apply Hall; lia).
  assert (Hnext : forall f, attempt_failure (env k) = Some f ->
            snd (retry_loop json_loads env fuel (S k) (Some f)) =
            PMError (attempt_failure (env (k + fuel))) (JBool false)).
  { intros f Hf. rewrite IH by (intros i ? ?; apply Hall; lia).
    destruct fuel as [|f']; [rewrite Nat.add_0_r, Hf; reflexivity|].
    replace (k + S f') with (S k + f') by lia. reflexivity. }
  destruct (env k) as [e| |e|c] eqn:E.
  - exfalso. apply Hk. reflexivity.
  - apply Hnext. reflexivity.
  - apply Hnext. reflexivity.
  - simpl in Hk. destruct (extract_result json_loads c) as [[fa nmi]|e] eqn:X.
    + exfalso. apply Hk. reflexivity.
    + apply Hnext. simpl. rewrite X. reflexivity.
Qed.

End Extraction.

(** C6 (amended): the terminal payload gives an answer exactly when it is
    JSON whose response is an object holding final_answer, and the answer
    is that final_answer with response.need_more_info, which defaults to
    False when absent; a missing final_answer raises KeyError. The
    exchange returns the answer of the first attempt not caught as a
    failure, whatever failed attempts came before it (a payload that is not
    JSON, has no response, or whose response is not an object holding
    final_answer fails its attempt as an exception); once every attempt has
    failed, process_message returns the structured error carrying the last
    failure, never an answer. *)
Theorem result_extraction (json_loads : string -> res json)
    (env : nat -> attempt_outcome) (n : nat) :
  (forall c fa nmi, extract_result json_loads c = Ok (fa, nmi) <->
     exists j fs, json_loads c = Ok j /\ getitem_key j "response" = Ok (JObj fs) /\
       assoc "final_answer" fs = Some fa /\ nmi = field_or fs "need_more_info" (JBool false)) /\
  (forall c j fs, json_loads c = Ok j -> getitem_key j "response" = Ok (JObj fs) ->
     assoc "final_answer" fs = None ->
     extract_result json_loads c = Err (KeyError "'final_answer'")) /\
  (forall fa nmi, snd (process_message json_loads env n) = PMReturn fa nmi <->
     exists k c, k < n /\ (forall i, i < k -> attempt_failure json_loads (env i) <> None) /\
       env k = AValue c /\ extract_result json_loads c = Ok (fa, nmi)) /\
  ((forall i, i < n -> attempt_failure json_loads (env i) <> None) ->
     snd (process_message json_loads env n) =
       PMError (match n with O => None | S n' => attempt_failure json_loads (env n') end)
         (JBool false)).
Proof.
  split; [|split; [|split]].
  - intros c fa nmi. unfold extract_result. split.
    + destruct (json_loads c) as [j|e] eqn:Hj; simpl; [|discriminate].
      destruct (getitem_key j "response") as [resp|e] eqn:Hr; simpl; [|discriminate].
      destruct resp; simpl; try discriminate.
      destruct (assoc "final_answer" fields) as [fa'|] eqn:Hfa; simpl; [|discriminate].
      intros H. exists j, fields.
      split; [first [reflexivity|assumption]|split; [first [reflexivity|assumption]|]].
      unfold field_or. destruct (assoc "need_more_info" fields); simpl in H;
        injection H as <- <-; auto.
    + intros (j & fs & Hj & Hr & Hfa & ->). rewrite Hj.
      destruct j; simpl in Hr |- *; try discriminate Hr.
      destruct (assoc "response" fields) as [v|]; [injection Hr as ->|discriminate Hr].
      simpl. rewrite Hfa. simpl. unfold field_or.
      destruct (assoc "need_more_info" fs); reflexivity.
  - intros c j fs Hj Hr Hfa. unfold extract_result. rewrite Hj. simpl. rewrite Hr. simpl.
    rewrite Hfa. reflexivity.
  - intros fa nmi. unfold process_message. rewrite retry_loop_return. split.
    + intros (k' & c & _ & H2 & H3 & H4 & H5). exists k', c.
      split; [lia|split; [intros i Hi; apply H3; lia|auto]].
    + intros (k' & c & H2 & H3 & H4 & H5). exists k', c.
      split; [lia|split; [lia|split; [intros i _ Hi; apply H3; lia|auto]]].
  - intros Hall. unfold process_message. rewrite retry_loop_exhausted by
      (intros i _ Hi; apply Hall; lia).
    destruct n; reflexivity.
Qed.

(** A timeout, then a payload with no final_answer, then a final payload. *)
Definition retry_then_answer : nat -> attempt_outcome :=
  fun k => match k with
           | O => ATimeout
           | 1 => AValue p_translated
           | _ => AValue p_final_ok
           end.

(** Witness of C6 (amended): after a timeout and a payload with no
    final_answer, the third attempt's answer is returned. *)
Lemma result_extraction_witness :
  snd (process_message demo_loads retry_then_answer 3) = PMReturn (JStr "ok") (JStr "False").
Proof.
  apply (proj2 (proj1 (proj2 (proj2 (result_extraction demo_loads retry_then_answer 3)))
                 (JStr "ok") (JStr "False"))).
  exists 2, p_final_ok. split; [lia|split; [|split; reflexivity]].
  intros i Hi. destruct i as [|[|i]]; [discriminate|discriminate|lia].
Defined.

(** * Further modules of the backend

    The CLU hooks (clu_hooks.py), the OSHA plugins of agents/, the CLU
    router and the group chat script, embedded over the same JSON values
    and exceptions. Integers are Z, dates CPython's proleptic Gregorian
    ordinals; uncaught exceptions of code that raises beyond the PyExc
    cases are an [outcome]. *)

From Stdlib Require Import ZArith.
Open Scope nat_scope.
Open Scope string_scope.


(** ** Python text operations used by the hooks and plugins

    Text is modelled as ASCII strings; [str_lower] is [str.lower] on them. *)

Definition lower_ascii (c : ascii) : ascii :=
  let n := nat_of_ascii c in
  if Nat.leb 65 n && Nat.leb n 90 then ascii_of_nat (n + 32) else c.

(** [s.lower()] *)
Fixpoint str_lower (s : string) : string :=
  match s with
  | EmptyString => EmptyString
  | String c s' => String (lower_ascii c) (str_lower s')
  end.


(** [s.startswith(p)] *)
Definition startswith (s p : string) : bool := String.prefix p s.

(** [needle in hay] for two str *)
Fixpoint str_contains (needle hay : string) : bool :=
  String.prefix needle hay ||
  match hay with
  | EmptyString => false
  | String _ h => str_contains needle h
  end.

Fixpoint replace_nonempty (fuel : nat) (old new s : string) : string :=
  match fuel with
  | O => s
  | S f =>
    match s with
    | EmptyString => EmptyString
    | String c s' =>
      if String.prefix old s
      then new ++ replace_nonempty f old new
                    (substring (String.length old) (String.length s) s)
      else String c (replace_nonempty f old new s')
    end
  end.

Fixpoint insert_around (new s : string) : string :=
  match s with
  | EmptyString => new
  | String c s' => new ++ String c (insert_around new s')
  end.

(** [s.replace(old, new)]: left to right, non-overlapping; each step of
    [replace_nonempty] consumes at least one character, so [length s] steps
    suffice. *)
Definition py_replace (old new s : string) : string :=
  if String.eqb old "" then insert_around new s
  else replace_nonempty (String.length s) old new s.

(** Truth value of a parsed JSON value ([if x:], [not x], [x or y]) *)
Definition py_truthy (j : json) : bool :=
  match j with
  | JNull => false
  | JBool b => b
  | JNum _ q => negb (Qeq_bool q 0)
  | JStr s => negb (String.eqb s "")
  | JArr xs => match xs with [] => false | _ => true end
  | JObj fs => match fs with [] => false | _ => true end
  end.

(** ** src/src/backend/src/clu_hooks.py *)

(** HTTP requests the hooks send to the Zone 1 services. *)
Inductive Request :=
| PostEvaluate (injury_type treatment : json)   (* POST {RECORDABILITY_URL}/evaluate *)
| GetRiskProfile (naics_code : string)         (* GET {ANALYTICS_URL}/risk-profile/{naics_code} *)
| PostSearch (query : string).                  (* POST {ECFR_URL}/search *)

Definition router_is_triage (router_type : option string) : bool :=
  match router_type with Some s => String.eqb s "TRIAGE_AGENT" | None => false end.

Section CluHooks.

(** [os.environ.get("ROUTER_TYPE")] *)
Variable router_type : option string.
(** The body of a hook's [try] block after the request is sent: the text it
    returns, or the exception raised by the client, [raise_for_status],
    [response.json()] or the formatting of the response. *)
Variable engine_text : Request -> res string.
(** Same for the bodies that can also fall out of the [try] without
    returning ([None]): DefinitionLookup's when the search has no results. *)
Variable search_text : Request -> res (option string).
(** [str(x)] of a JSON value that is not a str (an entity text need not be) *)
Variable repr_json : json -> string.

Definition py_str (j : json) : string :=
  match j with JStr s => s | _ => repr_json j end.

Definition triage_agent : bool := router_is_triage router_type.

(** [get_entity(entities, entity_name)] *)
Fixpoint get_entity (entities : list json) (entity_name : string) : res json :=
  match entities with
  | [] => Ok JNull
  | ent :: rest =>
    by_name <- (if triage_agent
                then (n <- py_get ent "name" JNull ;; Ok (py_eq_str n entity_name))
                else Ok false) ;;
    hit <- (if by_name then Ok true
            else (c <- py_get ent "category" JNull ;; Ok (py_eq_str c entity_name))) ;;
    if hit then getitem_key ent "text" else get_entity rest entity_name
  end.

Definition get_injury_type (entities : list json) : res json :=
  get_entity entities "InjuryType".
Definition get_treatment_type (entities : list json) : res json :=
  get_entity entities "TreatmentType".
Definition get_naics_code (entities : list json) : res json :=
  get_entity entities "NAICSCode".
Definition get_form_type (entities : list json) : res json :=
  get_entity entities "FormType".

Definition recordability_prompt : string :=
  "To evaluate recordability criteria, I need more information about the incident. "
  ++ "What type of injury or illness occurred, and what treatment was provided?".

Definition recordability_error : string :=
  "I encountered an error retrieving regulatory criteria. "
  ++ "Please provide more details about the injury and treatment, "
  ++ "and I'll have the full team evaluate your question.".

(** [RecordabilityQuestion(entities)], the second (effective) definition:
    the requests sent, then the returned text or the exception raised. *)
Definition RecordabilityQuestion (entities : list json) : list Request * res string :=
  match get_injury_type entities with
  | Err e => ([], Err e)
  | Ok injury_type =>
    match get_treatment_type entities with
    | Err e => ([], Err e)
    | Ok treatment_type =>
      if negb (py_truthy injury_type) && negb (py_truthy treatment_type)
      then ([], Ok recordability_prompt)
      else
        let rq := PostEvaluate injury_type treatment_type in
        ([rq], match engine_text rq with
               | Ok s => Ok s
               | Err _ => Ok recordability_error
               end)
    end
  end.

Definition naics_prompt : string :=
  "To provide industry risk data, I need your NAICS code. "
  ++ "This is typically a 4-6 digit code identifying your industry. "
  ++ "You can find it on your business tax documents or search at census.gov/naics.".

(** [IndustryRiskProfile(entities)] *)
Definition IndustryRiskProfile (entities : list json) : list Request * res string :=
  match get_naics_code entities with
  | Err e => ([], Err e)
  | Ok naics_code =>
    if negb (py_truthy naics_code) then ([], Ok naics_prompt)
    else
      let rq := GetRiskProfile (py_str naics_code) in
      ([rq], match engine_text rq with
             | Ok s => Ok s
             | Err _ =>
               Ok ("I couldn't retrieve data for NAICS " ++ py_str naics_code ++ ". "
                   ++ "Please verify the code is correct, or I can have the Analytics team "
                   ++ "look up your industry data.")
             end)
  end.

Definition form_300a_text : string :=
  "To generate Form 300A (Annual Summary), I'll need access to your recorded incidents "
  ++ "for the calendar year. Form 300A must be posted February 1 through April 30. "
  ++ "Please confirm the year and I'll prepare the summary.".
Definition form_301_text : string :=
  "Form 301 (Injury and Illness Incident Report) is completed for each recordable case. "
  ++ "I'll need the specific incident details. Which incident would you like to document?".
Definition form_300_text : string :=
  "Form 300 (Log of Work-Related Injuries and Illnesses) tracks all recordable cases. "
  ++ "To add an entry or generate the log, please specify which incidents to include.".
Definition forms_menu : string :=
  "I can help with OSHA forms:" ++ nl ++ nl
  ++ "• **Form 300**: Log of Work-Related Injuries and Illnesses" ++ nl
  ++ "• **Form 300A**: Annual Summary (post Feb 1 - Apr 30)" ++ nl
  ++ "• **Form 301**: Individual Incident Report" ++ nl ++ nl
  ++ "Which form do you need?".

Definition form_answer (form_type_clean : string) : string :=
  if str_contains "300a" form_type_clean then form_300a_text
  else if str_contains "301" form_type_clean then form_301_text
  else if str_contains "300" form_type_clean then form_300_text
  else forms_menu.

(** [FormGeneration(entities)]; no request is sent. *)
Definition FormGeneration (entities : list json) : res string :=
  form_type <- get_form_type entities ;;
  if py_truthy form_type then
    match form_type with
    | JStr s =>
      Ok (form_answer (py_replace "osha " "" (py_replace "form " "" (str_lower s))))
    | _ => Err (AttributeError ("'" ++ py_type_name form_type
                                ++ "' object has no attribute 'lower'"))
    end
  else Ok forms_menu.

(** The search term of DefinitionLookup: [ent.get("text")] of the first
    entity whose category is TreatmentType or InjuryType, else None. *)
Fixpoint definition_term (entities : list json) : res json :=
  match entities with
  | [] => Ok JNull
  | ent :: rest =>
    c <- py_get ent "category" JNull ;;
    if py_eq_str c "TreatmentType" || py_eq_str c "InjuryType"
    then py_get ent "text" JNull
    else definition_term rest
  end.

Definition lookup_prompt : string :=
  "I can look up OSHA recordkeeping definitions. "
  ++ "What term would you like me to define? "
  ++ "Common lookups include: recordable, work-related, first aid, medical treatment, "
  ++ "days away, restricted work, and privacy case.".

(** [DefinitionLookup(entities)] *)
Definition DefinitionLookup (entities : list json) : list Request * res string :=
  match definition_term entities with
  | Err e => ([], Err e)
  | Ok search_term =>
    if negb (py_truthy search_term) then ([], Ok lookup_prompt)
    else
      let rq := PostSearch ("definition " ++ py_str search_term) in
      let fallback :=
        "I couldn't find a specific definition for '" ++ py_str search_term
        ++ "' in the regulations. "
        ++ "Let me route this to the Governance team for a more thorough search." in
      ([rq], match search_text rq with
             | Ok (Some s) => Ok s
             | Ok None | Err _ => Ok fallback
             end)
  end.

End CluHooks.

Definition is_obj (j : json) : bool :=
  match j with JObj _ => true | _ => false end.

(** The test of get_entity on a dict entity *)
Definition ent_matches (t : bool) (n : string) (e : json) : bool :=
  match e with
  | JObj fs => (t && py_eq_str (field_or fs "name" JNull) n)
               || py_eq_str (field_or fs "category" JNull) n
  | _ => false
  end.


(** [str(n)] for a Python int *)
Definition digit_char (z : Z) : ascii := ascii_of_nat (48 + Z.to_nat z).

Fixpoint z_digits (fuel : nat) (z : Z) (acc : string) : string :=
  match fuel with
  | O => acc
  | S f =>
    let acc' := String (digit_char (z mod 10)) acc in
    if (z <? 10)%Z then acc' else z_digits f (z / 10) acc'
  end.

Definition py_str_int (z : Z) : string :=
  match z with
  | Z0 => "0"
  | Zpos p => z_digits (Pos.size_nat p) z ""
  | Zneg p => "-" ++ z_digits (Pos.size_nat p) (Zpos p) ""
  end.

(** ["=" * n] *)
Fixpoint str_repeat (n : nat) (s : string) : string :=
  match n with O => "" | S n' => s ++ str_repeat n' s end.

(** ** src/src/backend/src/agents/recordability_plugin.py *)

Definition first_aid_list : list string :=
  ["bandage"; "band-aid"; "butterfly closure"; "steri-strip";
   "finger guard"; "splint"; "elastic bandage"; "wrap";
   "non-prescription medication"; "aspirin"; "ibuprofen"; "acetaminophen";
   "antibiotic ointment"; "antiseptic"; "eye wash"; "eye flush";
   "tetanus shot"; "tetanus immunization";
   "wound cleaning"; "soaking"; "irrigation";
   "hot pack"; "cold pack"; "ice"; "heat therapy";
   "massage"; "drinking fluids"; "oxygen";
   "drilling fingernail"; "toenail"; "draining blister";
   "eye patch"; "rigid stay"; "finger splint"].

Definition medical_treatment_list : list string :=
  ["stitches"; "sutures"; "staples";
   "prescription medication"; "prescription strength";
   "physical therapy"; "chiropractic";
   "surgery"; "surgical";
   "cast"; "rigid immobilization";
   "root canal"; "tooth extraction";
   "mri"; "ct scan"; "x-ray with finding"].

Definition first_aid_reply (treatment : string) : string :=
  "'" ++ treatment ++ "' IS on the first aid list per 29 CFR 1904.7(a)." ++ nl
  ++ "First aid treatments do NOT make a case recordable by themselves." ++ nl
  ++ "However, check other recording criteria (days away, restricted work, etc.).".

Definition medical_reply (treatment : string) : string :=
  "'" ++ treatment ++ "' is MEDICAL TREATMENT beyond first aid." ++ nl
  ++ "Per 29 CFR 1904.7(a), this treatment MEETS the recording criteria." ++ nl
  ++ "If the case is work-related and a new case, it should be recorded.".

Definition neither_reply (treatment : string) : string :=
  "'" ++ treatment ++ "' is not definitively on either list." ++ nl
  ++ "Consider: Is this treatment beyond what a non-medical person could administer?" ++ nl
  ++ "If administered by a physician AND goes beyond the first aid list, it's likely recordable.".

(** [RecordabilityPlugin.check_first_aid_list(treatment)]: the first loop
    returns at the first first-aid term found, the second at the first
    medical term; the reply does not depend on which term it was. *)
Definition check_first_aid_list (treatment : string) : string :=
  let treatment_lower := str_lower treatment in
  if existsb (fun fa => str_contains fa treatment_lower) first_aid_list
  then first_aid_reply treatment
  else if existsb (fun mt => str_contains mt treatment_lower) medical_treatment_list
  then medical_reply treatment
  else neither_reply treatment.

(** The [results] dict of [_local_evaluate], in insertion order:
    question, ("met", "reason"). *)
Definition QResults := list (string * (bool * string)).

(** [results] after the Q3 updates of [_local_evaluate] *)
Definition local_results (injury_description treatment_provided : string)
  (work_related : bool) (days_away : option Z) (restricted_work : bool) : QResults :=
  let fa_check := check_first_aid_list treatment_provided in
  let c_med := if str_contains "MEDICAL TREATMENT" fa_check
               then ["Medical treatment beyond first aid"] else [] in
  let c_days := match days_away with
                | Some d => if (0 <? d)%Z then ["Days away from work: " ++ py_str_int d] else []
                | None => []
                end in
  let c_restr := if restricted_work then ["Restricted work or job transfer"] else [] in
  let q3_criteria := app c_med (app c_days c_restr) in
  [("Q0", (true, "Injury/illness described: " ++ injury_description));
   ("Q1", (work_related, if work_related then "Work-related" else "Not work-related"));
   ("Q2", (true, "Assumed new case (no prior history provided)"));
   ("Q3", (match q3_criteria with [] => false | _ => true end,
           match q3_criteria with
           | [] => "No recording criteria met"
           | _ => String.concat ", " q3_criteria
           end));
   ("Q4", (false, "No exemptions identified"))].

Definition q_met (results : QResults) (q : string) : bool :=
  match find (fun e : string * (bool * string) => String.eqb (fst e) q) results with
  | Some (_, (m, _)) => m
  | None => false
  end.

(** [all_met and not results["Q4"]["met"]] *)
Definition meets_criteria (results : QResults) : bool :=
  q_met results "Q0" && q_met results "Q1" && q_met results "Q2" && q_met results "Q3"
  && negb (q_met results "Q4").

(** [[q for q, d in results.items() if not d["met"] and q != "Q4"]] *)
Definition missing_questions (results : QResults) : list string :=
  map fst (filter (fun e : string * (bool * string) => negb (fst (snd e)) && negb (String.eqb (fst e) "Q4")) results).

Definition eq50 : string := str_repeat 50 "=".

Definition render_results (results : QResults) : string :=
  String.concat ""
    (map (fun e : string * (bool * string) => fst e ++ ": " ++ (if fst (snd e) then "✓ MET" else "✗ NOT MET") ++ nl
                   ++ "    " ++ snd (snd e) ++ nl ++ nl) results).

(** [RecordabilityPlugin._local_evaluate(...)] *)
Definition local_evaluate (injury_description treatment_provided : string)
  (work_related : bool) (days_away : option Z) (restricted_work : bool) : string :=
  let results := local_results injury_description treatment_provided
                   work_related days_away restricted_work in
  "RECORDABILITY EVALUATION (Q0-Q4 Framework)" ++ nl ++ eq50 ++ nl ++ nl
  ++ render_results results
  ++ (if meets_criteria results
      then eq50 ++ nl
           ++ "ASSESSMENT: This case MEETS the recording criteria." ++ nl
           ++ "Per 29 CFR 1904.7, cases meeting these criteria should be recorded." ++ nl
           ++ "Note: This is regulatory guidance, not a determination. "
           ++ "The employer makes the final recording decision."
      else eq50 ++ nl
           ++ "ASSESSMENT: Recording criteria NOT fully met." ++ nl
           ++ "Missing: " ++ String.concat ", " (missing_questions results) ++ nl
           ++ "Review the case details to confirm.").

(** *** Dates: [datetime] values by their proleptic Gregorian ordinal *)

Record date := mkDate { year : Z; month : Z; day : Z }.

Definition is_leap (y : Z) : bool :=
  (Z.eqb (y mod 4) 0 && negb (Z.eqb (y mod 100) 0)) || Z.eqb (y mod 400) 0.

Definition days_in_month (y m : Z) : Z :=
  if Z.eqb m 2 then (if is_leap y then 29 else 28)
  else if (Z.eqb m 4 || Z.eqb m 6 || Z.eqb m 9 || Z.eqb m 11) then 30 else 31.

Definition days_before_month (y m : Z) : Z :=
  (match m with
   | 1%Z => 0 | 2%Z => 31 | 3%Z => 59 | 4%Z => 90 | 5%Z => 120 | 6%Z => 151
   | 7%Z => 181 | 8%Z => 212 | 9%Z => 243 | 10%Z => 273 | 11%Z => 304 | _ => 334
   end + (if (2 <? m)%Z && is_leap y then 1 else 0))%Z.

Definition days_before_year (y : Z) : Z :=
  let y1 := (y - 1)%Z in (y1 * 365 + y1 / 4 - y1 / 100 + y1 / 400)%Z.

(** [d.toordinal()] *)
Definition toordinal (d : date) : Z :=
  (days_before_year (year d) + days_before_month (year d) (month d) + day d)%Z.

Definition valid_date (d : date) : Prop :=
  (1 <= year d <= 9999)%Z /\ (1 <= month d <= 12)%Z
  /\ (1 <= day d <= days_in_month (year d) (month d))%Z.

(** [date.max.toordinal()], for 9999-12-31 *)
Definition max_ordinal : Z := 3652059.

(** [d.weekday()] from the ordinal: 0001-01-01 is a Monday *)
Definition weekday (o : Z) : Z := ((o + 6) mod 7)%Z.

(** The business-day loop of calculate_days_away:
    [while current < return_dt: if current.weekday() < 5: days += 1; current += 1 day] *)
Fixpoint business_loop (fuel : nat) (current return_dt days : Z) : Z :=
  match fuel with
  | O => days
  | S f =>
    if (current <? return_dt)%Z
    then business_loop f (current + 1) return_dt
           (if (weekday current <? 5)%Z then days + 1 else days)%Z
    else days
  end.

(** [days] of calculate_days_away, from the ordinals of the two dates; the
    loop runs exactly [return_dt - start_count] times. *)
Definition days_counted (include_weekends : bool) (injury return_dt : Z) : Z :=
  let start_count := (injury + 1)%Z in
  if include_weekends then (return_dt - start_count)%Z
  else business_loop (Z.to_nat (return_dt - start_count)) start_count return_dt 0.

(** What a plugin function does: return a text, or raise an exception
    (by Python class name) that it does not catch. *)
Inductive outcome := Returns (s : string) | Raises (exc : string).

Section DaysAway.
(** [datetime.strptime(s, "%Y-%m-%d")]: the ValueError message, or the
    parsed date. *)
Variable strptime : string -> string + date.

(** [RecordabilityPlugin.calculate_days_away(...)] *)
Definition calculate_days_away (injury_date return_date : string)
  (include_weekends : bool) : outcome :=
  match strptime injury_date with
  | inl e => Returns ("Error parsing dates: " ++ e ++ ". Use YYYY-MM-DD format.")
  | inr injury =>
    match strptime return_date with
    | inl e => Returns ("Error parsing dates: " ++ e ++ ". Use YYYY-MM-DD format.")
    | inr return_dt =>
      let i := toordinal injury in
      let r := toordinal return_dt in
      if (max_ordinal <? i + 1)%Z then Raises "OverflowError"   (* injury + timedelta(days=1) *)
      else
        let days := days_counted include_weekends i r in
        Returns ("Days Away Calculation per 29 CFR 1904.7(b)(3):" ++ nl
                 ++ "- Injury date: " ++ injury_date ++ nl
                 ++ "- Return date: " ++ return_date ++ nl
                 ++ "- Days counted: " ++ py_str_int days ++ nl
                 ++ (if (180 <? days)%Z then "- Capped at: 180 days (maximum per OSHA)" ++ nl else "")
                 ++ nl ++ "Note: Do not count the day of injury. "
                 ++ "Count calendar days (including weekends/holidays) if employee "
                 ++ "would not have been able to work those days.")
    end
  end.
End DaysAway.


(** ** src/src/backend/src/agents/document_generation_plugin.py *)

Definition date_lt (a b : date) : bool := (toordinal a <? toordinal b)%Z.
Definition date_le (a b : date) : bool := (toordinal a <=? toordinal b)%Z.
(** [(a - b).days] *)
Definition date_sub (a b : date) : Z := (toordinal a - toordinal b)%Z.

Definition posting_status (today : date) : string :=
  let current_year := year today in
  let posting_start := mkDate current_year 2 1 in
  let posting_end := mkDate current_year 4 30 in
  if date_lt today posting_start then
    "⏳ Posting begins February 1, " ++ py_str_int current_year
    ++ " (" ++ py_str_int (date_sub posting_start today) ++ " days away)"
  else if date_le today posting_end then
    "📋 CURRENTLY IN POSTING PERIOD - Must be posted until April 30"
    ++ " (" ++ py_str_int (date_sub posting_end today) ++ " days remaining)"
  else "✅ Posting period ended April 30, " ++ py_str_int current_year.

(** The test that adds the countdown to the electronic submission status *)
Definition electronic_countdown (today : date) : bool :=
  let electronic_deadline := mkDate (year today) 3 2 in
  date_lt today electronic_deadline && (date_sub electronic_deadline today <=? 30)%Z.

Definition electronic_status (today : date) : string :=
  let current_year := year today in
  let electronic_deadline := mkDate current_year 3 2 in
  if date_lt today electronic_deadline then
    "⏳ Due by March 2, " ++ py_str_int current_year
    ++ (if (date_sub electronic_deadline today <=? 30)%Z
        then " ⚠️ (" ++ py_str_int (date_sub electronic_deadline today) ++ " days remaining)"
        else "")
  else "✅ Deadline passed (March 2, " ++ py_str_int current_year ++ ")".

Section Posting.
(** [datetime.strptime(current_date, "%Y-%m-%d").date()]: the ValueError
    message or the date *)
Variable strptime : string -> string + date.
(** [date.today()] *)
Variable today_env : date.

(** [DocumentGenerationPlugin.get_posting_requirements(current_date)]; the
    ValueError of an unparsable date is not caught. *)
Definition get_posting_requirements (current_date : option string) : outcome :=
  let parsed :=
    match current_date with
    | Some s => if String.eqb s "" then inr today_env else strptime s
    | None => inr today_env
    end in
  match parsed with
  | inl _ => Raises "ValueError"
  | inr today =>
    let y := year today in
    Returns ("OSHA Recordkeeping Requirements (" ++ py_str_int y ++ ")" ++ nl
      ++ eq50 ++ nl ++ nl
      ++ "📋 FORM 300A POSTING" ++ nl
      ++ "   Period: February 1 - April 30, " ++ py_str_int y ++ nl
      ++ "   For: Calendar year " ++ py_str_int (y - 1) ++ " data" ++ nl
      ++ "   Status: " ++ posting_status today ++ nl
      ++ "   Location: Where employee notices are normally posted" ++ nl
      ++ "   Certification: Must be certified by company executive" ++ nl ++ nl
      ++ "💻 ELECTRONIC SUBMISSION (ITA)" ++ nl
      ++ "   Deadline: March 2, " ++ py_str_int y ++ nl
      ++ "   Status: " ++ electronic_status today ++ nl
      ++ "   Required for:" ++ nl
      ++ "   • Establishments with 250+ employees (Form 300A)" ++ nl
      ++ "   • Establishments with 20-249 employees in high-hazard industries" ++ nl
      ++ "     (Forms 300A, 300, and 301)" ++ nl
      ++ "   Submit at: https://www.osha.gov/injuryreporting" ++ nl ++ nl
      ++ "📁 RECORD RETENTION" ++ nl
      ++ "   Forms 300, 300A, 301: Keep for 5 years following the year" ++ nl
      ++ "   Current retention: " ++ py_str_int (y - 5) ++ " through "
      ++ py_str_int (y - 1) ++ " records")
  end.
End Posting.

(** ** src/src/backend/src/agents/incident_management_plugin.py *)

Definition privacy_triggers : list (string * list string) :=
  [("intimate_body_part",
     ["groin"; "genitals"; "genital"; "breast"; "buttock"; "reproductive"; "sexual organ"]);
   ("sexual_assault", ["sexual assault"; "rape"; "harassment"; "inappropriate touching"]);
   ("mental_illness",
     ["mental illness"; "psychiatric"; "depression"; "anxiety disorder"; "ptsd"; "psychological"]);
   ("hiv_hepatitis_tb", ["hiv"; "hepatitis"; "tuberculosis"; "tb"; "aids"]);
   ("needlestick", ["needlestick"; "sharps"; "bloodborne"; "blood exposure"])].

Definition is_lower_ascii (c : ascii) : bool :=
  let n := nat_of_ascii c in Nat.leb 97 n && Nat.leb n 122.
Definition is_upper_ascii (c : ascii) : bool :=
  let n := nat_of_ascii c in Nat.leb 65 n && Nat.leb n 90.
Definition upper_ascii (c : ascii) : ascii :=
  if is_lower_ascii c then ascii_of_nat (nat_of_ascii c - 32) else c.

(** [s.title()]: a cased character is upper-cased after an uncased one and
    lower-cased after a cased one. *)
Fixpoint title_from (previous_is_cased : bool) (s : string) : string :=
  match s with
  | EmptyString => EmptyString
  | String c s' =>
    let cased := is_lower_ascii c || is_upper_ascii c in
    String (if cased then (if previous_is_cased then lower_ascii c else upper_ascii c) else c)
           (title_from cased s')
  end.
Definition py_title (s : string) : string := title_from false s.

(** The inner loop: [for keyword in keywords: if keyword in combined_text: ...; break] *)
Fixpoint keyword_hit (keywords : list string) (combined_text : string) : bool :=
  match keywords with
  | [] => false
  | k :: ks => if str_contains k combined_text then true else keyword_hit ks combined_text
  end.

Fixpoint collect_matches (cats : list (string * list string)) (combined_text : string)
  (matches : list string) : list string :=
  match cats with
  | [] => matches
  | (category, keywords) :: cs =>
    collect_matches cs combined_text
      (if keyword_hit keywords combined_text
       then app matches [py_title (py_replace "_" " " category)]
       else matches)
  end.

(** [matches] of check_privacy_criteria *)
Definition privacy_matches (injury_type body_part circumstances : string) : list string :=
  let combined_text := str_lower (injury_type ++ " " ++ body_part ++ " " ++ circumstances) in
  collect_matches privacy_triggers combined_text [].

Definition privacy_reply (matches : list string) : string :=
  "⚠️ PRIVACY CONCERN CASE IDENTIFIED" ++ nl ++ eq50 ++ nl
  ++ "Per 29 CFR 1904.29(b)(7), this case qualifies as a privacy concern." ++ nl ++ nl
  ++ "Matching criteria: " ++ String.concat ", " matches ++ nl ++ nl
  ++ "Required actions:" ++ nl
  ++ "• Enter 'Privacy Case' in Column B of Form 300 (instead of name)" ++ nl
  ++ "• Keep a separate, confidential list linking case numbers to names" ++ nl
  ++ "• Employee may request name be withheld from Form 300" ++ nl ++ nl
  ++ "Privacy concern cases include:" ++ nl
  ++ "1. Injury to intimate body part or reproductive system" ++ nl
  ++ "2. Sexual assault" ++ nl
  ++ "3. Mental illness" ++ nl
  ++ "4. HIV, hepatitis, or tuberculosis" ++ nl
  ++ "5. Needlestick or sharps injury with blood/OPIM exposure" ++ nl
  ++ "6. Any case where employee requests privacy".

Definition not_privacy_reply : string :=
  "✅ NOT A PRIVACY CONCERN CASE" ++ nl ++ eq50 ++ nl
  ++ "Based on the information provided, this case does not meet the "
  ++ "privacy concern criteria under 29 CFR 1904.29(b)(7)." ++ nl ++ nl
  ++ "The employee's name should be recorded on Form 300." ++ nl ++ nl
  ++ "Note: The employee may still request their name be withheld "
  ++ "(voluntary privacy request).".

(** [IncidentManagementPlugin.check_privacy_criteria(...)] *)
Definition check_privacy_criteria (injury_type body_part circumstances : string) : string :=
  match privacy_matches injury_type body_part circumstances with
  | [] => not_privacy_reply
  | matches => privacy_reply matches
  end.

Definition py_int (z : Z) : json := JNum true (inject_Z z).

(** [update_data] of update_incident, the body of its PATCH request *)
Definition update_data (incident_id : string) (days_away days_restricted days_transfer : option Z)
  (case_closed : bool) (notes : option string) : list (string * json) :=
  [("incident_id", JStr incident_id)]
  ++ match days_away with Some d => [("days_away", py_int (Z.min d 180))] | None => [] end
  ++ match days_restricted with Some d => [("days_restricted", py_int (Z.min d 180))] | None => [] end
  ++ match days_transfer with Some d => [("days_transfer", py_int (Z.min d 180))] | None => [] end
  ++ (if case_closed then [("status", JStr "closed")] else [])
  ++ match notes with Some n => if String.eqb n "" then [] else [("notes", JStr n)] | None => [] end.

(** ** src/src/backend/src/agents/industry_analytics_plugin.py *)

(** [_get_static_naics]: key, (title, sector), in insertion order *)
Definition naics_data : list (string * (string * string)) :=
  [("238220", ("Plumbing, Heating, and Air-Conditioning Contractors", "Construction"));
   ("236220", ("Commercial and Institutional Building Construction", "Construction"));
   ("311", ("Food Manufacturing", "Manufacturing"));
   ("622", ("Hospitals", "Health Care"));
   ("445", ("Food and Beverage Stores", "Retail Trade"));
   ("plumbing", ("238220 - Plumbing, Heating, and Air-Conditioning Contractors", "Construction"));
   ("hospital", ("622 - Hospitals", "Health Care"));
   ("construction", ("23 - Construction", "Construction"))].

Definition naics_reply (title sector : string) : string :=
  "NAICS Classification:" ++ nl ++ "- Code/Title: " ++ title ++ nl ++ "- Sector: " ++ sector.

(** [IndustryAnalyticsPlugin._get_static_naics(query)] *)
Definition get_static_naics (query : string) : string :=
  let query_lower := str_lower query in
  match find (fun e => str_contains (fst e) query_lower || str_contains query_lower (fst e))
             naics_data with
  | Some (_, (title, sector)) => naics_reply title sector
  | None => "No NAICS data found for '" ++ query ++ "'. Search at census.gov/naics"
  end.

(** [_get_static_rates]: code, (name, tcir, dart, year) with the values as
    Python prints them *)
Definition static_rates : list (string * (string * string * string * string)) :=
  [("238220", ("Plumbing, Heating, and Air-Conditioning Contractors", "2.8", "1.5", "2022"));
   ("236220", ("Commercial and Institutional Building Construction", "3.2", "1.8", "2022"));
   ("311", ("Food Manufacturing", "4.1", "2.3", "2022"));
   ("622", ("Hospitals", "5.5", "2.9", "2022"));
   ("445", ("Food and Beverage Stores", "3.8", "1.9", "2022"));
   ("23", ("Construction (All)", "2.8", "1.5", "2022"))].

(** The entry of the first code [naics_code] starts with *)
Definition static_rates_entry (naics_code : string)
  : option (string * (string * string * string * string)) :=
  find (fun e => startswith naics_code (fst e)) static_rates.

(** [IndustryAnalyticsPlugin._get_static_rates(naics_code)] *)
Definition get_static_rates (naics_code : string) : string :=
  match static_rates_entry naics_code with
  | Some (_, (name, tcir, dart, yr)) =>
    "Industry Injury Rates (BLS Data)" ++ nl ++ eq50 ++ nl
    ++ "NAICS: " ++ naics_code ++ nl
    ++ "Industry: " ++ name ++ nl
    ++ "Year: " ++ yr ++ nl ++ nl
    ++ "Total Case Incident Rate (TCIR): " ++ tcir ++ nl
    ++ "DART Rate: " ++ dart ++ nl ++ nl
    ++ "Source: Bureau of Labor Statistics (cached data)" ++ nl
    ++ "Note: BLS data typically has a 2-year lag."
  | None =>
    "No injury rate data available for NAICS " ++ naics_code ++ ". Check BLS.gov for current data."
  end.

(** ** src/src/backend/src/agents/regulatory_guidance_plugin.py *)

Definition cfr_sections : list (string * string) :=
  [("1904.7", "General recording criteria for work-related injuries and illnesses.");
   ("1904.7(a)", "First aid list - treatments that do NOT make a case recordable.");
   ("1904.5", "Determination of work-relatedness.");
   ("1904.5(b)(2)", "Exceptions to work-relatedness presumption.");
   ("1904.29", "Forms and privacy concern cases.");
   ("1904.32", "Annual summary (Form 300A) requirements.");
   ("1904.39", "Reporting fatalities and severe injuries to OSHA.");
   ("1904.41", "Electronic submission requirements.")].

(** The section key chosen: the first with [citation.startswith(key) or
    key.startswith(citation)] *)
Definition static_section_key (citation : string) : option (string * string) :=
  find (fun e => startswith citation (fst e) || startswith (fst e) citation) cfr_sections.

(** [RegulatoryGuidancePlugin._get_static_section(citation)] *)
Definition get_static_section (citation : string) : string :=
  match static_section_key citation with
  | Some (key, desc) =>
    "29 CFR " ++ key ++ ": " ++ desc ++ nl ++ "(Full text available when eCFR API is online)"
  | None =>
    "Section 29 CFR " ++ citation ++ " not found in cache. Check the eCFR at ecfr.gov."
  end.

(** *** Facts *)


(** ** src/src/backend/src/router/clu_router.py *)

(** [j < t] for a float threshold [t]; bool is an int subclass *)
Definition py_lt (j : json) (t : Q) : res bool :=
  match j with
  | JNum _ q => Ok (negb (Qle_bool t q))
  | JBool b => Ok (negb (Qle_bool t (if b then 1 else 0)))
  | _ => Err (TypeError ("'<' not supported between instances of '"
                          ++ py_type_name j ++ "' and 'float'"))
  end.

(** What call_runtime returns: the dict of parse_response, or
    [{"error": e}] holding the exception object. *)
Inductive clu_output :=
| CluResult (fields : list (string * json))
| CluError (e : PyExc).

Section CluRouter.
(** [float(os.environ.get("CLU_CONFIDENCE_THRESHOLD", "0.7"))], read on
    every call; the setting is taken to parse as a float. *)
Variable clu_threshold : Q.

(** [parse_response(response)] *)
Definition parse_response (response : json) : res (list (string * json)) :=
  let confidence_threshold := clu_threshold in
  r <- getitem_key response "result" ;;
  prediction <- getitem_key r "prediction" ;;
  intents <- getitem_key prediction "intents" ;;
  intent0 <- getitem_0 intents ;;
  confidence <- getitem_key intent0 "confidenceScore" ;;
  intent <- getitem_key prediction "topIntent" ;;
  entities <- getitem_key prediction "entities" ;;
  below <- py_lt confidence confidence_threshold ;;
  let error1 := if below then JStr "CLU confidence threshold not met" else JNull in
  let error := if py_eq_str intent "None" then JStr "No intent recognized" else error1 in
  Ok [("kind", JStr "clu_result"); ("error", error); ("intent", intent);
      ("entities", entities); ("confidence", confidence); ("api_response", response)].

(** [call_runtime(...)]: [analyze] is [client.analyze_conversation(task=...)],
    the response or the exception it raises. *)
Definition call_runtime (analyze : res json) : clu_output :=
  match (response <- analyze ;; parse_response response) with
  | Ok fs => CluResult fs
  | Err e => CluError e
  end.
End CluRouter.

(** A CLU response with its prediction fields *)
Definition clu_response (top_intent : json) (confidence : json) (entities : json) : json :=
  JObj [("result", JObj [("prediction", JObj
          [("topIntent", top_intent);
           ("intents", JArr [JObj [("category", top_intent); ("confidenceScore", confidence)]]);
           ("entities", entities)])])].

(** ** src/src/backend/src/sk_orchestration_scripts/groupchat_client.py *)

Section GroupChatScript.
Variable json_loads : string -> res json.
Variable repr_json : json -> string.

(** The final [return StringResult(result=None, ...)]: result is typed
    str, so it raises ValidationError. *)
Definition no_match : res StringResult := new_StringResult None "No routing logic matched.".

(** The [try] body of the TriageAgent branch: [Ok None] is leaving it
    without a [return], which reaches the final [return] of the method. *)
Definition gc_triage_body (m : ChatMessageContent) (r : Registry) : res (option StringResult) :=
  parsed <- json_loads (content m) ;;
  t <- py_get parsed "type" JNull ;;
  if py_eq_str t "cqa_result" then some_sr (new_StringResult None "CQA result received.")
  else
    t' <- py_get parsed "type" JNull ;;
    if py_eq_str t' "clu_result" then
      resp <- getitem_key parsed "response" ;;
      res1 <- getitem_key resp "result" ;;
      convs <- getitem_key res1 "conversations" ;;
      c0 <- getitem_0 convs ;;
      ints <- getitem_key c0 "intents" ;;
      i0 <- getitem_0 ints ;;
      _ <- getitem_key i0 "name" ;;
      some_sr (new_StringResult (find_agent r "Lumi") "Routing to Lumi for SAGE agent selection.")
    else Ok None.

(** [CustomGroupChatManager.select_next_agent] of the script *)
Definition gc_select_next_agent (h : ChatHistory) (r : Registry) : res StringResult :=
  match last_opt h with
  | None => no_match   (* [len(chat_history) == 1] fails on the empty history *)
  | Some m =>
    if is_user m then
      (if Nat.eqb (length h) 1 then
         new_StringResult (find_agent r "TranslationAgent") "Initial translation."
       else no_match)
    else if name_is m "TranslationAgent" then
      try_res (parsed <- json_loads (content m) ;;
               _ <- py_get parsed "response" JNull ;;
               new_StringResult (find_agent r "TriageAgent") "Routing to TriageAgent.")
              (fun e => new_StringResult None ("Error: " ++ exc_str e))
    else if name_is m "TriageAgent" then
      o <- try_res (gc_triage_body m r)
             (fun _ => some_sr (new_StringResult None "Error processing triage.")) ;;
      match o with Some sr => Ok sr | None => no_match end
    else if name_is m "Lumi" then
      try_res (parsed <- json_loads (content m) ;;
               target <- py_get parsed "target_agent" JNull ;;
               new_StringResult (match target with JStr t => find_agent r t | _ => None end)
                 ("Routing to " ++ py_str repr_json target ++ "."))
              (fun e => new_StringResult None ("Error: " ++ exc_str e))
    else if (match name m with Some n => mem_str n valid_agents | None => false end)
    then new_StringResult (find_agent r "TranslationAgent") "Final translation."
    else no_match
  end.

End GroupChatScript.

(** Concrete entity lists and a date parser for the witnesses *)

Definition ent (cat txt : string) : json :=
  JObj [("category", JStr cat); ("text", JStr txt)].

Definition table_strptime (s : string) : string + date :=
  if String.eqb s "9999-12-31" then inr (mkDate 9999 12 31)
  else inl ("time data '" ++ s ++ "' does not match format '%Y-%m-%d'").


(** * Properties of the further modules *)

Lemma py_get_obj fs k d : py_get (JObj fs) k d = Ok (field_or fs k d).
Proof. unfold py_get, field_or. destruct (assoc k fs); reflexivity. Qed.

Section HookFacts.
Variable router_type : option string.
Variable engine_text : Request -> res string.
Variable search_text : Request -> res (option string).
Variable repr_json : json -> string.

Lemma get_entity_obj fs rest n :
  get_entity router_type (JObj fs :: rest) n =
  if ent_matches (triage_agent router_type) n (JObj fs)
  then getitem_key (JObj fs) "text" else get_entity router_type rest n.
Proof.
  cbn [get_entity]. unfold ent_matches.
  destruct (triage_agent router_type); rewrite ?py_get_obj; cbn [bind andb orb];
    [destruct (py_eq_str (field_or fs "name" JNull) n); cbn [bind orb]; [reflexivity|] |];
    rewrite ?py_get_obj; cbn [bind];
    destruct (py_eq_str (field_or fs "category" JNull) n); reflexivity.
Qed.

Lemma get_entity_skip (pre l : list json) (n : string) :
  forallb is_obj pre = true ->
  find (ent_matches (triage_agent router_type) n) pre = None ->
  get_entity router_type (app pre l) n = get_entity router_type l n.
Proof.
  induction pre as [|e pre IH]; intros Hobj Hskip; [reflexivity|].
  destruct e; try discriminate. cbn [forallb is_obj andb find] in Hobj, Hskip. cbn [app].
  rewrite get_entity_obj.
  destruct (ent_matches (triage_agent router_type) n (JObj fields)); [discriminate|].
  exact (IH Hobj Hskip).
Qed.

Lemma definition_term_skip (pre l : list json) :
  forallb (fun e => match e with
                    | JObj g => negb (py_eq_str (field_or g "category" JNull) "TreatmentType"
                                      || py_eq_str (field_or g "category" JNull) "InjuryType")
                    | _ => false
                    end) pre = true ->
  definition_term (app pre l) = definition_term l.
Proof.
  induction pre as [|e pre IH]; intros Hpre; [reflexivity|].
  destruct e; try discriminate. simpl in Hpre. apply andb_true_iff in Hpre as [He Hpre].
  cbn [app definition_term]. rewrite py_get_obj. cbn [bind].
  apply negb_true_iff in He. rewrite He. exact (IH Hpre).
Qed.

(** X3: once both entities are extracted, RecordabilityQuestion never
    raises; it sends exactly one request to the Recordability Engine, with
    the two values, when one of them is truthy, and otherwise sends none and
    asks for the missing information. *)
Theorem RecordabilityQuestion_guard (entities : list json) (inj trt : json)
  (Hinj : get_injury_type router_type entities = Ok inj)
  (Htrt : get_treatment_type router_type entities = Ok trt) :
  fst (RecordabilityQuestion router_type engine_text entities) =
    (if py_truthy inj || py_truthy trt then [PostEvaluate inj trt] else [])
  /\ (exists s, snd (RecordabilityQuestion router_type engine_text entities) = Ok s)
  /\ (py_truthy inj || py_truthy trt = false ->
      snd (RecordabilityQuestion router_type engine_text entities) = Ok recordability_prompt).
Proof.
  unfold RecordabilityQuestion. rewrite Hinj, Htrt.
  destruct (py_truthy inj), (py_truthy trt); simpl;
    (split; [reflexivity | split;
      [ first [ eexists; reflexivity
              | destruct (engine_text (PostEvaluate inj trt)); eexists; reflexivity ]
      | intro H; first [reflexivity | discriminate] ]]).
Qed.

(** X4: the try/except of RecordabilityQuestion covers only the engine
    call: when the first entity get_entity takes as the InjuryType (by
    category, or under ROUTER_TYPE=TRIAGE_AGENT also by name), at whatever
    position among dict entities, has no "text", the KeyError of
    get_entity escapes and nothing is sent. *)
Theorem RecordabilityQuestion_missing_text_escapes (pre : list json)
  (fs : list (string * json)) (rest : list json)
  (Hobj : forallb is_obj pre = true)
  (Hfirst : find (ent_matches (triage_agent router_type) "InjuryType") pre = None)
  (Hmatch : ent_matches (triage_agent router_type) "InjuryType" (JObj fs) = true)
  (Htext : assoc "text" fs = None) :
  RecordabilityQuestion router_type engine_text (app pre (JObj fs :: rest)) =
    ([], Err (KeyError "'text'")).
Proof.
  unfold RecordabilityQuestion, get_injury_type.
  rewrite (get_entity_skip pre _ _ Hobj Hfirst), get_entity_obj, Hmatch.
  simpl. rewrite Htext. reflexivity.
Qed.

(** X5: DefinitionLookup takes its term from the first entity whose
    category is TreatmentType or InjuryType only, at whatever position
    among dict entities: when that entity has no truthy "text" (missing,
    null or empty), it asks for a term and sends no search, even if a later
    entity carries one; unlike get_entity, a missing "text" raises
    nothing. *)
Theorem DefinitionLookup_first_term_decides (pre : list json)
  (fs : list (string * json)) (rest : list json)
  (Hpre : forallb (fun e => match e with
                            | JObj g => negb (py_eq_str (field_or g "category" JNull) "TreatmentType"
                                              || py_eq_str (field_or g "category" JNull) "InjuryType")
                            | _ => false
                            end) pre = true)
  (Hcat : py_eq_str (field_or fs "category" JNull) "TreatmentType"
          || py_eq_str (field_or fs "category" JNull) "InjuryType" = true)
  (Htext : py_truthy (field_or fs "text" JNull) = false) :
  DefinitionLookup search_text repr_json (app pre (JObj fs :: rest)) = ([], Ok lookup_prompt).
Proof.
  unfold DefinitionLookup. rewrite (definition_term_skip pre _ Hpre).
  cbn [definition_term]. rewrite !py_get_obj. cbn [bind].
  rewrite Hcat, Htext. reflexivity.
Qed.

(** X6: once the NAICS entity is extracted, IndustryRiskProfile never
    raises; it queries the Analytics API, once and with that code, exactly
    when the code is truthy. *)
Theorem IndustryRiskProfile_guard (entities : list json) (v : json)
  (Hv : get_naics_code router_type entities = Ok v) :
  fst (IndustryRiskProfile router_type engine_text repr_json entities) =
    (if py_truthy v then [GetRiskProfile (py_str repr_json v)] else [])
  /\ exists s, snd (IndustryRiskProfile router_type engine_text repr_json entities) = Ok s.
Proof.
  unfold IndustryRiskProfile. rewrite Hv.
  destruct (py_truthy v); simpl.
  - split; [reflexivity|]. destruct (engine_text _); eexists; reflexivity.
  - split; [reflexivity|]. eexists; reflexivity.
Qed.

End HookFacts.

(** *** Facts on the text operations *)

Lemma prefix_app (n a b : string) :
  String.prefix n a = true -> String.prefix n (a ++ b) = true.
Proof.
  revert a; induction n as [|c n IH]; intros a H; [destruct (a ++ b); reflexivity|].
  destruct a as [|c' a]; [discriminate|]. simpl in *.
  destruct (ascii_dec c c'); [apply IH; exact H | discriminate].
Qed.

Lemma contains_app_l (n a b : string) :
  str_contains n a = true -> str_contains n (a ++ b) = true.
Proof.
  induction a as [|c a IH]; intro H.
  - destruct n; [destruct b; reflexivity | discriminate].
  - change (String c a ++ b) with (String c (a ++ b)).
    cbn [str_contains] in *. apply orb_true_iff in H as [H|H].
    + pose proof (prefix_app n (String c a) b H) as H2.
      change (String c a ++ b) with (String c (a ++ b)) in H2. rewrite H2. reflexivity.
    + rewrite (IH H). apply orb_true_r.
Qed.

Lemma contains_app_r (n a b : string) :
  str_contains n b = true -> str_contains n (a ++ b) = true.
Proof.
  induction a as [|c a IH]; intro H; [exact H|].
  change (String c a ++ b) with (String c (a ++ b)).
  cbn [str_contains]. rewrite (IH H). apply orb_true_r.
Qed.

Lemma str_lower_app (a b : string) : str_lower (a ++ b) = str_lower a ++ str_lower b.
Proof. induction a; simpl; [reflexivity|]. rewrite IHa. reflexivity. Qed.

(** *** Facts on the weekday count *)

Fixpoint wd_count (n : nat) (c : Z) : Z :=
  match n with
  | O => 0%Z
  | S n' => ((if (weekday c <? 5)%Z then 1 else 0) + wd_count n' (c + 1))%Z
  end.

Lemma business_loop_count (n : nat) (c d : Z) :
  business_loop n c (c + Z.of_nat n) d = (d + wd_count n c)%Z.
Proof.
  revert c d; induction n as [|n IH]; intros c d; cbn [business_loop wd_count].
  - lia.
  - rewrite (proj2 (Z.ltb_lt c (c + Z.of_nat (S n)))) by lia.
    replace (c + Z.of_nat (S n))%Z with (c + 1 + Z.of_nat n)%Z by lia.
    rewrite IH. destruct (weekday c <? 5)%Z; lia.
Qed.

Lemma wd_count_bounds (n : nat) (c : Z) : (0 <= wd_count n c <= Z.of_nat n)%Z.
Proof.
  revert c; induction n as [|n IH]; intro c; cbn [wd_count]; [lia|].
  specialize (IH (c + 1)%Z). destruct (weekday c <? 5)%Z; lia.
Qed.

Lemma wd_count_add (a b : nat) (c : Z) :
  wd_count (a + b) c = (wd_count a c + wd_count b (c + Z.of_nat a))%Z.
Proof.
  revert c; induction a as [|a IH]; intro c; cbn [wd_count Nat.add].
  - rewrite Z.add_0_r. lia.
  - rewrite IH. replace (c + 1 + Z.of_nat a)%Z with (c + Z.of_nat (S a))%Z by lia.
    lia.
Qed.

Lemma weekday_succ (c : Z) :
  weekday (c + 1) = if (weekday c =? 6)%Z then 0%Z else (weekday c + 1)%Z.
Proof.
  unfold weekday.
  replace (c + 1 + 6)%Z with ((c + 6) + 1)%Z by lia.
  rewrite Z.add_mod by lia. rewrite (Z.mod_small 1 7) by lia.
  pose proof (Z.mod_pos_bound (c + 6) 7 ltac:(lia)) as Hb.
  destruct (Z.eqb_spec ((c + 6) mod 7) 6) as [->|Hne]; [reflexivity|].
  apply Z.mod_small. lia.
Qed.

Lemma wd_count_week (c : Z) : wd_count 7 c = 5%Z.
Proof.
  cbn [wd_count]. repeat rewrite weekday_succ.
  pose proof (Z.mod_pos_bound (c + 6) 7 ltac:(lia)) as Hb.
  change ((c + 6) mod 7)%Z with (weekday c) in Hb.
  generalize dependent (weekday c); intros w Hb.
  assert (Hw : w = 0%Z \/ w = 1%Z \/ w = 2%Z \/ w = 3%Z \/ w = 4%Z \/ w = 5%Z \/ w = 6%Z)
    by lia.
  destruct Hw as [->|[->|[->|[->|[->|[->| ->]]]]]]; reflexivity.
Qed.

Lemma wd_count_weeks (k : nat) (c : Z) : wd_count (7 * k) c = (5 * Z.of_nat k)%Z.
Proof.
  revert c; induction k as [|k IH]; intro c; [reflexivity|].
  replace (7 * S k) with (7 + 7 * k) by lia.
  rewrite wd_count_add, wd_count_week, IH. lia.
Qed.

Lemma replies_echo (t : string) :
  str_contains t (check_first_aid_list t) = true.
Proof.
  assert (Hself : str_contains t t = true).
  { destruct t; simpl; [reflexivity|].
    apply orb_true_iff; left. destruct (ascii_dec a a); [|contradiction].
    clear e. induction t; simpl; [reflexivity|].
    destruct (ascii_dec a0 a0); [|contradiction]. exact IHt. }
  unfold check_first_aid_list, first_aid_reply, medical_reply, neither_reply.
  destruct existsb; [|destruct existsb];
    apply (contains_app_r _ "'"), contains_app_l; exact Hself.
Qed.

Lemma prefix_split (t s : string) :
  String.prefix t s = true -> exists rest, s = t ++ rest.
Proof.
  revert s; induction t as [|a t IH]; intros s H.
  - exists s. reflexivity.
  - destruct s as [|b s]; [discriminate|]. simpl in H.
    destruct (ascii_dec a b) as [<-|]; [|discriminate].
    destruct (IH s H) as [rest ->]. exists rest. reflexivity.
Qed.

Lemma contains_trans (n t h : string) :
  str_contains n t = true -> str_contains t h = true -> str_contains n h = true.
Proof.
  intros Hn Ht. induction h as [|c h IH].
  - destruct t; [|discriminate]. destruct n; [reflexivity|discriminate].
  - cbn [str_contains] in Ht. apply orb_true_iff in Ht as [Ht|Ht].
    + destruct (prefix_split _ _ Ht) as [rest Hs]. rewrite Hs.
      apply contains_app_l. exact Hn.
    + cbn [str_contains]. rewrite (IH Ht). apply orb_true_r.
Qed.

(** X8: a first-aid term found anywhere in the lowered treatment text wins:
    the reply is the first-aid one whatever medical terms the text also
    holds (e.g. "Stitches at the office", where "ice" occurs in "office"). *)
Theorem first_aid_term_wins (treatment fa : string)
  (Hfa : In fa first_aid_list)
  (Hocc : str_contains fa (str_lower treatment) = true) :
  check_first_aid_list treatment = first_aid_reply treatment.
Proof.
  unfold check_first_aid_list.
  assert (H : existsb (fun fa => str_contains fa (str_lower treatment)) first_aid_list = true).
  { apply existsb_exists. exists fa. split; assumption. }
  rewrite H. reflexivity.
Qed.

(** X9: _local_evaluate counts "Medical treatment beyond first aid" by
    searching the reply of check_first_aid_list for "MEDICAL TREATMENT";
    every reply quotes the treatment text, so a treatment text holding that
    phrase always meets Q3, even when it is a first-aid treatment. *)
Theorem local_evaluate_quoted_phrase (injury treatment : string) (work_related : bool)
  (days_away : option Z) (restricted : bool)
  (Hphrase : str_contains "MEDICAL TREATMENT" treatment = true) :
  q_met (local_results injury treatment work_related days_away restricted) "Q3" = true.
Proof.
  pose proof (contains_trans _ _ _ Hphrase (replies_echo treatment)) as H.
  unfold local_results. cbv zeta. rewrite H. reflexivity.
Qed.

(** X10: the local fallback finds the recording criteria met exactly when
    the case is work-related and one Q3 criterion holds: the reply of
    check_first_aid_list mentions MEDICAL TREATMENT, a positive number of
    days away (None and 0 count as none), or restricted work. *)
Theorem local_evaluate_meets_iff (injury treatment : string) (work_related : bool)
  (days_away : option Z) (restricted : bool) :
  meets_criteria (local_results injury treatment work_related days_away restricted) =
  work_related
  && (str_contains "MEDICAL TREATMENT" (check_first_aid_list treatment)
      || match days_away with Some d => (0 <? d)%Z | None => false end
      || restricted).
Proof.
  unfold local_results. cbv zeta.
  destruct (str_contains "MEDICAL TREATMENT" (check_first_aid_list treatment));
    [|destruct days_away as [d|]; [destruct (0 <? d)%Z|]];
    destruct restricted, work_related; reflexivity.
Qed.

(** X11: when the local fallback finds the criteria not met, the
    "Missing:" list it prints is never empty and only ever names Q1 and Q3
    (Q0 and Q2 are always met, Q4 is never listed). *)
Theorem local_evaluate_missing (injury treatment : string) (work_related : bool)
  (days_away : option Z) (restricted : bool) :
  let results := local_results injury treatment work_related days_away restricted in
  (meets_criteria results = false <-> missing_questions results <> [])
  /\ incl (missing_questions results) ["Q1"; "Q3"].
Proof.
  unfold local_results. cbv zeta.
  destruct (str_contains "MEDICAL TREATMENT" (check_first_aid_list treatment));
    [|destruct days_away as [d|]; [destruct (0 <? d)%Z|]];
    destruct restricted, work_related; cbn;
    (split; [split; intro H; first [discriminate | congruence | reflexivity | exfalso; now apply H]
            | intros x Hx; simpl in *; tauto]).
Qed.

(** X12: without weekends, calculate_days_away counts five days per full
    week between the day after the injury and the return date. *)
Theorem business_days_per_week (injury k : Z) (Hk : (0 <= k)%Z) :
  days_counted false injury (injury + 1 + 7 * k) = (5 * k)%Z.
Proof.
  unfold days_counted.
  replace (injury + 1 + 7 * k - (injury + 1))%Z with (Z.of_nat (7 * Z.to_nat k)) by lia.
  rewrite Nat2Z.id.
  replace (injury + 1 + 7 * k)%Z with (injury + 1 + Z.of_nat (7 * Z.to_nat k))%Z by lia.
  rewrite business_loop_count, wd_count_weeks. lia.
Qed.

(** X13: the business-day count is never negative and never exceeds the
    calendar-day count, which itself goes negative when the return date is
    not after the injury date. *)
Theorem business_days_bounds (injury return_dt : Z) :
  (0 <= days_counted false injury return_dt <= Z.max 0 (days_counted true injury return_dt))%Z
  /\ days_counted true injury return_dt = (return_dt - injury - 1)%Z.
Proof.
  unfold days_counted. split; [|lia].
  destruct (Z.le_gt_cases return_dt (injury + 1)) as [Hle|Hgt].
  - replace (Z.to_nat (return_dt - (injury + 1))) with 0 by lia. simpl. lia.
  - set (n := Z.to_nat (return_dt - (injury + 1))).
    assert (Hn : Z.of_nat n = (return_dt - (injury + 1))%Z) by (subst n; lia).
    replace return_dt with (injury + 1 + Z.of_nat n)%Z at 1 2 by lia.
    rewrite business_loop_count. pose proof (wd_count_bounds n (injury + 1)). lia.
Qed.

Section DaysAwayFacts.
Variable strptime : string -> string + date.

(** X14: calculate_days_away catches only ValueError: for an injury date
    of 9999-12-31, the day after it overflows and the OverflowError
    escapes, instead of the error text returned for unparsable dates. *)
Theorem days_away_overflow_escapes (injury_date return_date : string) (d r : date)
  (include_weekends : bool)
  (Hi : strptime injury_date = inr d) (Hr : strptime return_date = inr r)
  (Hmax : toordinal d = max_ordinal) :
  calculate_days_away strptime injury_date return_date include_weekends = Raises "OverflowError".
Proof.
  unfold calculate_days_away. rewrite Hi, Hr, Hmax. reflexivity.
Qed.
End DaysAwayFacts.

Ltac zcases :=
  repeat match goal with
         | |- context [(?a <? ?b)%Z] => destruct (Z.ltb_spec a b)
         | |- context [(?a <=? ?b)%Z] => destruct (Z.leb_spec a b)
         | |- context [(?a =? ?b)%Z] => destruct (Z.eqb_spec a b)
         end; simpl; first [reflexivity | exfalso; lia].

Lemma append_assoc (a b c : string) : (a ++ b) ++ c = a ++ (b ++ c).
Proof. induction a; simpl; [reflexivity|]. rewrite IHa. reflexivity. Qed.

Lemma prefix_empty (s : string) : String.prefix "" s = true.
Proof. destruct s; reflexivity. Qed.

Lemma prefix_of_app (p r : string) : String.prefix p (p ++ r) = true.
Proof.
  induction p as [|a p IH]; [apply prefix_empty|].
  simpl. destruct (ascii_dec a a); [exact IH | contradiction].
Qed.

Lemma prefix_comparable (c p r3 r1 : string) :
  c ++ r3 = p ++ r1 -> String.prefix p c = true \/ String.prefix c p = true.
Proof.
  revert p; induction c as [|a c IH]; intros p H.
  - right. apply prefix_empty.
  - destruct p as [|b p].
    + left. reflexivity.
    + simpl in H. injection H as <- H.
      simpl. destruct (ascii_dec a a); [|contradiction]. exact (IH p H).
Qed.

(** An earlier key that is a prefix of a later one is compared first. *)
Lemma comparable_shadow (p k c : string) :
  String.prefix p k = true ->
  (startswith c k || startswith k c) = true ->
  (startswith c p || startswith p c) = true.
Proof.
  unfold startswith. intros Hpk H.
  destruct (prefix_split _ _ Hpk) as [r1 ->].
  apply orb_true_iff in H as [H|H].
  - destruct (prefix_split _ _ H) as [r2 ->].
    rewrite append_assoc, prefix_of_app. reflexivity.
  - destruct (prefix_split _ _ H) as [r3 Heq].
    destruct (prefix_comparable c p r3 r1 (eq_sym Heq)) as [E|E]; rewrite E;
      [reflexivity | apply orb_true_r].
Qed.

Lemma keyword_hit_app (kws : list string) (t x : string) :
  keyword_hit kws t = true -> keyword_hit kws (t ++ x) = true.
Proof.
  induction kws as [|k ks IH]; simpl; [discriminate|].
  destruct (str_contains k t) eqn:E.
  - rewrite (contains_app_l _ _ _ E). reflexivity.
  - intro H. destruct (str_contains k (t ++ x)); [reflexivity | exact (IH H)].
Qed.

Lemma collect_matches_incl (cats : list (string * list string)) (t x : string)
  (acc acc' : list string) :
  incl acc acc' ->
  incl (collect_matches cats t acc) (collect_matches cats (t ++ x) acc').
Proof.
  revert acc acc'; induction cats as [|[cat kws] cs IH]; intros acc acc' Hinc; [exact Hinc|].
  simpl. apply IH.
  destruct (keyword_hit kws t) eqn:E.
  - rewrite (keyword_hit_app _ _ _ E). intros y Hy. apply in_app_or in Hy as [Hy|Hy];
      apply in_or_app; [left; apply Hinc, Hy | right; exact Hy].
  - destruct (keyword_hit kws (t ++ x)); [|exact Hinc].
    intros y Hy. apply in_or_app. left. apply Hinc, Hy.
Qed.

(** X15: the countdown of the electronic-submission status (shown when
    March 2 is at most 30 days away) covers February and March 1, and
    January 31 only in common years: in a leap year March 2 is then 31 days
    away. *)
Theorem electronic_countdown_days (d : date) (Hd : valid_date d) :
  electronic_countdown d =
  (Z.eqb (month d) 2 || (Z.eqb (month d) 3 && Z.eqb (day d) 1)
   || (Z.eqb (month d) 1 && Z.eqb (day d) 31 && negb (is_leap (year d)))).
Proof.
  destruct d as [y m dd]. unfold valid_date in Hd. simpl in *.
  destruct Hd as [Hy [Hm Hdd]].
  unfold electronic_countdown, date_lt, date_sub, toordinal. simpl.
  assert (Hcase : m = 1%Z \/ m = 2%Z \/ m = 3%Z \/ m = 4%Z \/ m = 5%Z \/ m = 6%Z
               \/ m = 7%Z \/ m = 8%Z \/ m = 9%Z \/ m = 10%Z \/ m = 11%Z \/ m = 12%Z) by lia.
  unfold days_in_month, days_before_month in *.
  destruct Hcase as [->|[->|[->|[->|[->|[->|[->|[->|[->|[->|[->| ->]]]]]]]]]]];
    simpl in *; destruct (is_leap y); simpl in *; zcases.
Qed.

(** X16: adding text to the circumstances never withdraws a privacy
    category: the matched categories only grow, so a privacy concern case
    stays one. *)
Theorem privacy_matches_grow (injury_type body_part circumstances extra : string) :
  incl (privacy_matches injury_type body_part circumstances)
       (privacy_matches injury_type body_part (circumstances ++ extra))
  /\ (privacy_matches injury_type body_part circumstances <> [] ->
      check_privacy_criteria injury_type body_part (circumstances ++ extra)
      = privacy_reply (privacy_matches injury_type body_part (circumstances ++ extra))).
Proof.
  assert (Hx : privacy_matches injury_type body_part (circumstances ++ extra) =
               collect_matches privacy_triggers
                 (str_lower (injury_type ++ " " ++ body_part ++ " " ++ circumstances)
                  ++ str_lower extra) []).
  { unfold privacy_matches. rewrite <- str_lower_app.
    rewrite !append_assoc. reflexivity. }
  assert (Hinc : incl (privacy_matches injury_type body_part circumstances)
                      (privacy_matches injury_type body_part (circumstances ++ extra))).
  { rewrite Hx. unfold privacy_matches. apply collect_matches_incl. intros y Hy; exact Hy. }
  split; [exact Hinc|].
  intro Hne. unfold check_privacy_criteria.
  destruct (privacy_matches injury_type body_part (circumstances ++ extra)) eqn:E;
    [|reflexivity].
  exfalso. destruct (privacy_matches injury_type body_part circumstances) as [|y ys];
    [contradiction|]. apply (Hinc y). left. reflexivity.
Qed.

(** X17: the PATCH body of update_incident never carries a day count above
    180: each of days_away, days_restricted and days_transfer present in it
    is the given count capped at 180 (negative counts pass unchanged). *)
Theorem update_data_capped (incident_id : string) (days_away days_restricted days_transfer : option Z)
  (case_closed : bool) (notes : option string) (k : string) (v : json)
  (Hk : In k ["days_away"; "days_restricted"; "days_transfer"])
  (Hv : assoc k (update_data incident_id days_away days_restricted days_transfer
                   case_closed notes) = Some v) :
  exists d, v = py_int (Z.min d 180) /\ (Z.min d 180 <= 180)%Z
            /\ In (Some d) [days_away; days_restricted; days_transfer].
Proof.
  destruct Hk as [<-|[<-|[<-|[]]]]; unfold update_data in Hv;
    destruct days_away as [a|], days_restricted as [r|], days_transfer as [t|],
      case_closed, notes as [n|]; try destruct (String.eqb n "");
    simpl in Hv; try discriminate; injection Hv as <-;
    eexists; (split; [reflexivity | split; [lia | simpl; tauto]]).
Qed.

(** X18: in the cached NAICS lookup a query is also matched when its
    lower-cased text occurs inside a key, so every query that occurs in
    "238220" (the empty query, "2", "3", "22", ...) is answered with
    Plumbing, Heating, and Air-Conditioning Contractors. *)
Theorem static_naics_substring_of_first_key (query : string)
  (Hsub : str_contains (str_lower query) "238220" = true) :
  get_static_naics query =
    naics_reply "Plumbing, Heating, and Air-Conditioning Contractors" "Construction".
Proof.
  unfold get_static_naics. cbn [find naics_data fst]. rewrite Hsub, orb_true_r.
  reflexivity.
Qed.


(** X20: the cached section entries 1904.7(a) and 1904.5(b)(2) are never
    returned: any citation that matches one of them also matches the
    shorter key 1904.7 or 1904.5 listed before it (so "1904.7(a)" gets the
    1904.7 text). *)
Theorem static_section_shadowed (citation : string) (key desc : string)
  (Hk : static_section_key citation = Some (key, desc)) :
  key <> "1904.7(a)" /\ key <> "1904.5(b)(2)".
Proof.
  unfold static_section_key in Hk. cbn [find cfr_sections fst] in Hk.
  destruct (startswith citation "1904.7" || startswith "1904.7" citation) eqn:E7.
  { injection Hk as <- _. split; discriminate. }
  destruct (startswith citation "1904.7(a)" || startswith "1904.7(a)" citation) eqn:E7a.
  { exfalso. rewrite (comparable_shadow "1904.7" "1904.7(a)" citation eq_refl E7a) in E7. discriminate. }
  destruct (startswith citation "1904.5" || startswith "1904.5" citation) eqn:E5.
  { injection Hk as <- _. split; discriminate. }
  destruct (startswith citation "1904.5(b)(2)" || startswith "1904.5(b)(2)" citation) eqn:E5b.
  { exfalso. rewrite (comparable_shadow "1904.5" "1904.5(b)(2)" citation eq_refl E5b) in E5. discriminate. }
  repeat match type of Hk with
         | (if ?b then _ else _) = _ => destruct b
         end; try discriminate; injection Hk as <- _; split; discriminate.
Qed.

(** ** Facts *)

Lemma find_agent_member (r : Registry) (a : string) :
  In a r -> find_agent r a = Some a.
Proof.
  unfold find_agent. induction r as [|x r IH]; cbn; [tauto|].
  intros [->|H].
  - now rewrite String.eqb_refl.
  - destruct (String.eqb_spec x a) as [->|_]; auto.
Qed.

(** X21: the dict built by call_runtime on a successful call has kind
    "clu_result", carries the runtime response unchanged under
    "api_response", and its confidence is a number (the [<] comparison
    has succeeded on it). *)
Theorem call_runtime_result_shape (t : Q) (response : json) (fs : list (string * json))
  (Hres : call_runtime t (Ok response) = CluResult fs) :
  assoc "kind" fs = Some (JStr "clu_result") /\
  assoc "api_response" fs = Some response /\
  exists c, assoc "confidence" fs = Some c /\
            match c with JNum _ _ | JBool _ => True | _ => False end.
Proof.
  unfold call_runtime, parse_response in Hres; cbn [bind] in Hres.
  destruct (getitem_key response "result") as [r|] eqn:E1; cbn [bind] in Hres; [|discriminate].
  destruct (getitem_key r "prediction") as [p|] eqn:E2; cbn [bind] in Hres; [|discriminate].
  destruct (getitem_key p "intents") as [is|] eqn:E3; cbn [bind] in Hres; [|discriminate].
  destruct (getitem_0 is) as [i0|] eqn:E4; cbn [bind] in Hres; [|discriminate].
  destruct (getitem_key i0 "confidenceScore") as [c|] eqn:E5; cbn [bind] in Hres; [|discriminate].
  destruct (getitem_key p "topIntent") as [ti|] eqn:E6; cbn [bind] in Hres; [|discriminate].
  destruct (getitem_key p "entities") as [en|] eqn:E7; cbn [bind] in Hres; [|discriminate].
  destruct (py_lt c t) as [b|] eqn:E8; cbn [bind] in Hres; [|discriminate].
  injection Hres as <-. cbn. repeat split. exists c. split; [reflexivity|].
  destruct c; cbn in E8; try discriminate; exact I.
Qed.

(** X22: on a response with a numeric confidence, parse_response leaves
    "error" at None exactly when the top intent is not "None" and the
    confidence reaches the threshold; a "None" intent reports
    "No intent recognized" whatever the confidence. *)
Theorem parse_response_error_field (t q : Q) (f : bool) (top entities : json) :
  exists fs, parse_response t (clu_response top (JNum f q) entities) = Ok fs /\
    (assoc "error" fs = Some JNull <-> (py_eq_str top "None" = false /\ (t <= q)%Q)) /\
    (py_eq_str top "None" = true -> assoc "error" fs = Some (JStr "No intent recognized")).
Proof.
  eexists. split; [reflexivity|]. cbn.
  destruct (py_eq_str top "None"); cbn.
  - split; [split; [discriminate|intros [H _]; discriminate]|reflexivity].
  - split; [|discriminate].
    destruct (Qle_bool t q) eqn:E; cbn.
    + apply Qle_bool_iff in E. tauto.
    + split; [discriminate|]. intros [_ H]. apply Qle_bool_iff in H. congruence.
Qed.

Section GroupChatFacts.
Variable json_loads : string -> res json.
Variable repr_json : json -> string.
Variable confidence_threshold cqa_confidence : Q.

(** X23: the script routes a user turn (or an empty history) only when it
    is the first message: on any longer history it falls through to its
    final StringResult(result=None, ...), which raises ValidationError,
    where the orchestrator's manager routes to a registered
    TranslationAgent. *)
Theorem gc_user_turn_needs_singleton (h : ChatHistory) (r : Registry)
  (Hlast : match last_opt h with None => True | Some m => is_user m = true end)
  (Hlen : length h <> 1) :
  gc_select_next_agent json_loads repr_json h r = Err none_result_error /\
  (In "TranslationAgent" r ->
   select_next_agent json_loads confidence_threshold cqa_confidence h r
     = Ok (Some (mkSR "TranslationAgent" "Routing to TranslationAgent for initial translation."))).
Proof.
  assert (Hu : In "TranslationAgent" r ->
            some_sr (route_user_message r) =
            Ok (Some (mkSR "TranslationAgent" "Routing to TranslationAgent for initial translation."))).
  { intros HT. unfold route_user_message. rewrite (find_agent_in _ _ HT). reflexivity. }
  unfold gc_select_next_agent, select_next_agent.
  destruct (last_opt h) as [m|]; [|split; [reflexivity|exact Hu]].
  rewrite Hlast. apply Nat.eqb_neq in Hlen. rewrite Hlen. split; [reflexivity|exact Hu].
Qed.

(** X24: a TriageAgent payload that is a JSON object whose "type" is not
    "clu_result" makes the script raise ValidationError: a cqa_result
    builds StringResult(result=None, ...) inside the try, and so does its
    except clause; any other type leaves the try without a return and
    reaches the final StringResult(result=None, ...). *)
Theorem gc_triage_other_type (h : ChatHistory) (r : Registry) (m : ChatMessageContent)
  (fs : list (string * json))
  (Hlast : last_opt h = Some m) (Hrole : role m = ASSISTANT)
  (Hname : name m = Some "TriageAgent")
  (Hload : json_loads (content m) = Ok (JObj fs))
  (Hclu : py_eq_str (field_or fs "type" JNull) "clu_result" = false) :
  gc_select_next_agent json_loads repr_json h r = Err none_result_error.
Proof.
  unfold gc_select_next_agent. rewrite Hlast. unfold is_user, name_is.
  rewrite Hrole, Hname. cbn -[gc_triage_body].
  unfold gc_triage_body. rewrite Hload. cbn [bind py_get].
  unfold field_or in Hclu.
  destruct (assoc "type" fs) as [ty|]; cbn [bind];
    [destruct (py_eq_str ty "cqa_result"); [reflexivity|]|]; cbn [bind];
    rewrite Hclu; reflexivity.
Qed.

(** X25: the script's Lumi step routes to any registered participant the
    payload names, with no check against the SAGE agents: a target that
    is a registry key is returned as the next agent, with reason
    "Routing to <target>.". *)
Theorem gc_lumi_routes_any_member (h : ChatHistory) (r : Registry) (m : ChatMessageContent)
  (fs : list (string * json)) (a : string)
  (Hlast : last_opt h = Some m) (Hrole : role m = ASSISTANT)
  (Hname : name m = Some "Lumi")
  (Hload : json_loads (content m) = Ok (JObj fs))
  (Htarget : assoc "target_agent" fs = Some (JStr a))
  (Hin : In a r) :
  gc_select_next_agent json_loads repr_json h r = Ok (mkSR a ("Routing to " ++ a ++ ".")).
Proof.
  unfold gc_select_next_agent. rewrite Hlast. unfold is_user, name_is.
  rewrite Hrole, Hname. cbn -[bind py_get find_agent py_str].
  rewrite Hload. cbn [bind py_get try_res]. rewrite Htarget. cbn [bind].
  rewrite (find_agent_member r a Hin). reflexivity.
Qed.

End GroupChatFacts.

(** * Witnesses of the properties of the further modules *)

Lemma RecordabilityQuestion_guard_witness :
  fst (RecordabilityQuestion None (fun _ => Ok "evaluated") [ent "InjuryType" "sprain"]) =
    [PostEvaluate (JStr "sprain") JNull]
  /\ (exists s, snd (RecordabilityQuestion None (fun _ => Ok "evaluated")
                       [ent "InjuryType" "sprain"]) = Ok s)
  /\ (py_truthy (JStr "sprain") || py_truthy JNull = false ->
      snd (RecordabilityQuestion None (fun _ => Ok "evaluated") [ent "InjuryType" "sprain"])
      = Ok recordability_prompt).
Proof.
  apply (RecordabilityQuestion_guard None (fun _ => Ok "evaluated")
           [ent "InjuryType" "sprain"] (JStr "sprain") JNull); reflexivity.
Defined.

Lemma RecordabilityQuestion_missing_text_escapes_witness :
  RecordabilityQuestion None (fun _ => Ok "evaluated")
    (app [ent "BodyPart" "ankle"; ent "TreatmentType" "stitches"]
         (JObj [("category", JStr "InjuryType")] :: [ent "InjuryType" "sprain"]))
  = ([], Err (KeyError "'text'")).
Proof.
  apply (RecordabilityQuestion_missing_text_escapes None (fun _ => Ok "evaluated")
           [ent "BodyPart" "ankle"; ent "TreatmentType" "stitches"]
           [("category", JStr "InjuryType")] [ent "InjuryType" "sprain"]); reflexivity.
Defined.

Lemma DefinitionLookup_first_term_decides_witness :
  DefinitionLookup (fun _ => Ok (Some "definition")) (fun _ => "None")
    (app [ent "BodyPart" "ankle"]
         (JObj [("category", JStr "TreatmentType"); ("text", JStr "")]
          :: [ent "InjuryType" "laceration"])) = ([], Ok lookup_prompt).
Proof.
  apply (DefinitionLookup_first_term_decides (fun _ => Ok (Some "definition")) (fun _ => "None")
           [ent "BodyPart" "ankle"] [("category", JStr "TreatmentType"); ("text", JStr "")]
           [ent "InjuryType" "laceration"]); reflexivity.
Defined.

Lemma IndustryRiskProfile_guard_witness :
  fst (IndustryRiskProfile None (fun _ => Ok "profile") (fun _ => "None")
         [ent "NAICSCode" "238220"]) = [GetRiskProfile "238220"]
  /\ exists s, snd (IndustryRiskProfile None (fun _ => Ok "profile") (fun _ => "None")
                      [ent "NAICSCode" "238220"]) = Ok s.
Proof.
  apply (IndustryRiskProfile_guard None (fun _ => Ok "profile") (fun _ => "None")
           [ent "NAICSCode" "238220"] (JStr "238220")); reflexivity.
Defined.

Lemma first_aid_term_wins_witness :
  check_first_aid_list "Stitches at the office" = first_aid_reply "Stitches at the office".
Proof.
  apply (first_aid_term_wins "Stitches at the office" "ice");
    [vm_compute; tauto | vm_compute; reflexivity].
Defined.

Lemma local_evaluate_quoted_phrase_witness :
  q_met (local_results "laceration" "bandage, no MEDICAL TREATMENT" false None false) "Q3" = true.
Proof.
  apply local_evaluate_quoted_phrase. vm_compute. reflexivity.
Defined.

Lemma business_days_per_week_witness :
  days_counted false 738947 (738947 + 1 + 7 * 2) = 10%Z.
Proof.
  apply (business_days_per_week 738947 2). lia.
Defined.

Lemma days_away_overflow_escapes_witness :
  calculate_days_away table_strptime "9999-12-31" "9999-12-31" false = Raises "OverflowError".
Proof.
  apply (days_away_overflow_escapes table_strptime "9999-12-31" "9999-12-31"
           (mkDate 9999 12 31) (mkDate 9999 12 31) false);
    vm_compute; reflexivity.
Defined.

Lemma electronic_countdown_days_witness :
  electronic_countdown (mkDate 2024 1 31) = false.
Proof.
  apply (electronic_countdown_days (mkDate 2024 1 31)).
  unfold valid_date; cbn; lia.
Defined.

Lemma update_data_capped_witness :
  exists d, py_int 180 = py_int (Z.min d 180) /\ (Z.min d 180 <= 180)%Z
            /\ In (Some d) [Some 200%Z; None; None].
Proof.
  apply (update_data_capped "INC-1" (Some 200%Z) None None false None "days_away");
    [cbn; tauto | reflexivity].
Defined.

Lemma static_naics_substring_of_first_key_witness :
  get_static_naics "3" =
    naics_reply "Plumbing, Heating, and Air-Conditioning Contractors" "Construction".
Proof.
  apply static_naics_substring_of_first_key. vm_compute. reflexivity.
Defined.


Lemma static_section_shadowed_witness :
  exists key desc, static_section_key "1904.7(a)" = Some (key, desc)
                   /\ key <> "1904.7(a)" /\ key <> "1904.5(b)(2)".
Proof.
  do 2 eexists. split; [vm_compute; reflexivity|].
  eapply (static_section_shadowed "1904.7(a)"). vm_compute. reflexivity.
Defined.

Lemma call_runtime_result_shape_witness :
  exists fs, call_runtime (7 # 10) (Ok (clu_response (JStr "FormGeneration") (JNum false (9 # 10)) (JArr [])))
             = CluResult fs
  /\ assoc "kind" fs = Some (JStr "clu_result")
  /\ assoc "api_response" fs = Some (clu_response (JStr "FormGeneration") (JNum false (9 # 10)) (JArr []))
  /\ exists c, assoc "confidence" fs = Some c /\
               match c with JNum _ _ | JBool _ => True | _ => False end.
Proof.
  eexists. split; [vm_compute; reflexivity|].
  apply (call_runtime_result_shape (7 # 10)). vm_compute. reflexivity.
Defined.

Lemma gc_user_turn_needs_singleton_witness :
  gc_select_next_agent demo_loads (fun _ => "None") [user_msg "hi"; user_msg "again"] full_registry
    = Err none_result_error /\
  (In "TranslationAgent" full_registry ->
   select_next_agent demo_loads demo_clu demo_cqa [user_msg "hi"; user_msg "again"] full_registry
   = Ok (Some (mkSR "TranslationAgent" "Routing to TranslationAgent for initial translation."))).
Proof.
  apply (gc_user_turn_needs_singleton demo_loads (fun _ => "None") demo_clu demo_cqa);
    cbn; [reflexivity | discriminate].
Defined.

Lemma gc_triage_other_type_witness :
  gc_select_next_agent (fun _ => Ok (JObj [("type", JStr "cqa_result")])) (fun _ => "None")
    [user_msg "hi"; agent_msg "TriageAgent" "{}"] full_registry = Err none_result_error.
Proof.
  apply (gc_triage_other_type (fun _ => Ok (JObj [("type", JStr "cqa_result")])) (fun _ => "None")
           [user_msg "hi"; agent_msg "TriageAgent" "{}"] full_registry
           (agent_msg "TriageAgent" "{}") [("type", JStr "cqa_result")]); reflexivity.
Defined.

Lemma gc_lumi_routes_any_member_witness :
  gc_select_next_agent (fun _ => Ok (JObj [("target_agent", JStr "TranslationAgent")]))
    (fun _ => "None") [user_msg "hi"; agent_msg "Lumi" "{}"] full_registry
  = Ok (mkSR "TranslationAgent" "Routing to TranslationAgent.").
Proof.
  apply (gc_lumi_routes_any_member (fun _ => Ok (JObj [("target_agent", JStr "TranslationAgent")]))
           (fun _ => "None") [user_msg "hi"; agent_msg "Lumi" "{}"] full_registry
           (agent_msg "Lumi" "{}") [("target_agent", JStr "TranslationAgent")] "TranslationAgent");
    try reflexivity. vm_compute. tauto.
Defined.
